(** * KmlViewer: a shallow embedding of src/KmlViewer.jsx

    The component reads a KML file, converts it to GeoJSON with an external
    converter, tallies geometry types and line lengths in one pass over the
    features, and keeps the result in five React state cells.  The embedding
    follows the source function by function:

    - JavaScript objects used as dictionaries ([counts], [lengths]) are
      [gmap string _]; the keys are the GeoJSON geometry type names the
      converter emits, so members inherited from [Object.prototype] are
      never looked up and are not modelled;
    - handlers run in a small monad [M] over the component state, the
      Leaflet map and a chronological trace of the calls made to the host
      ([alert], [console.error], [FileReader.readAsText], ...), with
      exceptions as a second kind of outcome;
    - the external functions ([DOMParser.parseFromString], togeojson's
      [kml], turf's [length] and [bbox]) are section variables, functions
      that return or throw; the Leaflet map is the class [Leaflet]. *)

From Stdlib Require Import ZArith QArith Qabs Qminmax.
From stdpp Require Import gmap strings list fin_maps.

Local Open Scope Z_scope.
Local Open Scope string_scope.

(** ** JavaScript numbers

    Lengths and coordinates are IEEE doubles in the source.  The development
    only adds them, tests them for truthiness (the [x || 0] idiom) and
    compares them with zero, so it is stated over an interface that doubles
    satisfy: [num_nonneg v] reads [v >= 0] (false for NaN), and the sum of
    two such doubles is again [>= 0]. *)

Class JsNumber := {
  num : Type;
  num_zero : num;
  num_add : num -> num -> num;
  num_truthy : num -> bool;
  num_nonneg : num -> Prop;
  num_nonneg_zero : num_nonneg num_zero;
  num_nonneg_add : forall a b, num_nonneg a -> num_nonneg b -> num_nonneg (num_add a b)
}.

(** ** Data model *)

(** A thrown value; the handlers only read its [message]. *)
Record Error := { message : string }.

Inductive Outcome (A : Type) :=
| Normal (a : A)
| Thrown (e : Error).
Arguments Normal {A} a.
Arguments Thrown {A} e.

Section DataModel.
Context {JN : JsNumber}.

(** A geometry: its GeoJSON type name and its coordinates, kept as a list of
    paths of [lon, lat] positions (the component never inspects them; only
    turf does). *)
Record Geometry := {
  type : string;
  coordinates : list (list (num * num))
}.

(** [geometry] is [null] for a placemark without geometry. *)
Record Feature := {
  geometry : option Geometry;
  properties : gmap string string
}.

Record FeatureCollection := {
  features : list Feature
}.

(** The five [useState] cells of the component. *)
Record ViewerState := {
  geojsonData : option FeatureCollection;
  elementCounts : gmap string Z;
  lineLengths : gmap string num;
  activeView : option string;
  isLoading : bool
}.

(** [useState] initial values. *)
Definition initialState : ViewerState := {|
  geojsonData := None;
  elementCounts := ∅;
  lineLengths := ∅;
  activeView := None;
  isLoading := false
|}.

(** The two local objects of [parseKML]. *)
Record Locals := {
  counts : gmap string Z;
  lengths : gmap string num
}.

Record File := { file_name : string }.

(** [[minY, minX], [maxY, maxX]] *)
Definition Bounds : Type := (num * num) * (num * num).

(** Calls made to the host, in the order they happen. *)
Inductive Effect :=
| EAlert (msg : string)
| EConsoleError (msg : string) (e : Error)
| EPreventDefault
| EReadAsText (file : File)
| EFitBounds (b : Bounds).

(** The Leaflet map obtained from [useMap()]: its current view, and
    [map.fitBounds(bounds)] as a function on views. *)
Class Leaflet := {
  MapView : Type;
  fitBounds : Bounds -> MapView -> MapView
}.

End DataModel.

(** ** The handler monad *)

Section KmlViewer.
Context {JN : JsNumber} {LF : Leaflet}.

(** The host environment. *)
Variable Document : Type.
(** [new DOMParser().parseFromString(text, mime)] *)
Variable parseFromString : string -> string -> Outcome Document.
(** togeojson's [kml(doc)] *)
Variable kml : Document -> Outcome FeatureCollection.
(** turf's [length(feature, { units })] *)
Variable length : Feature -> string -> Outcome num.
(** turf's [bbox(geojson)], [minX, minY, maxX, maxY] *)
Variable bbox : FeatureCollection -> num * num * num * num.

Record World := {
  ui : ViewerState;
  mapView : MapView;
  trace : list Effect
}.

Definition M (A : Type) : Type := World -> Outcome A * World.

Definition ret {A} (a : A) : M A := fun w => (Normal a, w).

Definition bind {A B} (m : M A) (k : A -> M B) : M B :=
  fun w =>
    match m w with
    | (Normal a, w1) => k a w1
    | (Thrown e, w1) => (Thrown e, w1)
    end.

#[local] Instance M_ret : MRet M := @ret.
#[local] Instance M_bind : MBind M := fun A B k m => bind m k.

(** An external call: its result, or its exception, in the current world. *)
Definition call {A} (r : Outcome A) : M A := fun w => (r, w).

(** [try { body } catch (e) { handler(e) }] *)
Definition try_catch {A} (body : M A) (handler : Error -> M A) : M A :=
  fun w =>
    match body w with
    | (Normal a, w1) => (Normal a, w1)
    | (Thrown e, w1) => handler e w1
    end.

(** [try { body } catch (e) { handler(e) } finally { final }]: [final] runs on
    every path; an exception of [final] replaces the earlier outcome. *)
Definition try_catch_finally {A} (body : M A) (handler : Error -> M A)
    (final : M unit) : M A :=
  fun w =>
    let (r, w1) := try_catch body handler w in
    match final w1 with
    | (Normal _, w2) => (r, w2)
    | (Thrown e, w2) => (Thrown e, w2)
    end.

(** The world with further calls appended to its trace. *)
Definition log_to (w : World) (es : list Effect) : World :=
  {| ui := ui w; mapView := mapView w; trace := trace w ++ es |}.

Definition emit (e : Effect) : M unit :=
  fun w => (Normal tt, log_to w [e]).

Definition modify_ui (f : ViewerState -> ViewerState) : M unit :=
  fun w => (Normal tt, {| ui := f (ui w); mapView := mapView w; trace := trace w |}).

Definition alert (msg : string) : M unit := emit (EAlert msg).
Definition console_error (msg : string) (e : Error) : M unit := emit (EConsoleError msg e).

(** The state setters returned by [useState]. *)
Definition setGeojsonData (v : option FeatureCollection) : M unit :=
  modify_ui (fun s => {| geojsonData := v; elementCounts := elementCounts s;
                         lineLengths := lineLengths s; activeView := activeView s;
                         isLoading := isLoading s |}).
Definition setElementCounts (v : gmap string Z) : M unit :=
  modify_ui (fun s => {| geojsonData := geojsonData s; elementCounts := v;
                         lineLengths := lineLengths s; activeView := activeView s;
                         isLoading := isLoading s |}).
Definition setLineLengths (v : gmap string num) : M unit :=
  modify_ui (fun s => {| geojsonData := geojsonData s; elementCounts := elementCounts s;
                         lineLengths := v; activeView := activeView s;
                         isLoading := isLoading s |}).
Definition setActiveView (v : option string) : M unit :=
  modify_ui (fun s => {| geojsonData := geojsonData s; elementCounts := elementCounts s;
                         lineLengths := lineLengths s; activeView := v;
                         isLoading := isLoading s |}).
Definition setIsLoading (v : bool) : M unit :=
  modify_ui (fun s => {| geojsonData := geojsonData s; elementCounts := elementCounts s;
                         lineLengths := lineLengths s; activeView := activeView s;
                         isLoading := v |}).

(** ** JavaScript idioms used by [parseKML] *)

(** [feature.geometry?.type]: [undefined] when the geometry is [null]. *)
Definition geometry_type (feature : Feature) : option string :=
  match geometry feature with
  | Some g => Some (type g)
  | None => None
  end.

(** [!type]: [undefined] and the empty string are falsy. *)
Definition falsy_type (t : option string) : bool :=
  match t with
  | None => true
  | Some s => if decide (s = "") then true else false
  end.

(** [counts[type] || 0]: a missing key and a zero both give 0. *)
Definition count_or_0 (o : option Z) : Z :=
  match o with
  | Some v => if (v =? 0)%Z then 0 else v
  | None => 0
  end.

(** [lengths[type] || 0]: a missing key, zero and NaN all give 0. *)
Definition length_or_0 (o : option num) : num :=
  match o with
  | Some v => if num_truthy v then v else num_zero
  | None => num_zero
  end.

(** [array.includes(x)] on an array of strings. *)
Definition includes (l : list string) (x : string) : bool :=
  existsb (String.eqb x) l.

(** [array.forEach(callback)], with the objects the callback mutates passed
    along. *)
Fixpoint forEach {A L} (l : list A) (callback : A -> L -> M L) (loc : L) : M L :=
  match l with
  | [] => ret loc
  | x :: rest => loc1 ← callback x loc; forEach rest callback loc1
  end.

(** ** [parseKML] *)

(** The callback of [converted.features.forEach] (source lines 52-68):
    return on a falsy type, count the type, and for a line-like type add the
    measured length, writing to the console when the measurement throws. *)
Definition processFeature (feature : Feature) (loc : Locals) : M Locals :=
  match geometry_type feature with
  | None => ret loc
  | Some ty =>
    if falsy_type (Some ty) then ret loc
    else
      let loc1 := {| counts := <[ty := count_or_0 (counts loc !! ty) + 1]> (counts loc);
                     lengths := lengths loc |} in
      if includes ["LineString"; "MultiLineString"] ty then
        try_catch
          (featureLength ← call (length feature "kilometers");
           ret {| counts := counts loc1;
                  lengths := <[ty := num_add (length_or_0 (lengths loc1 !! ty)) featureLength]>
                               (lengths loc1) |})
          (fun e =>
             console_error "Error calculating length for feature:" e ;;
             ret loc1)
      else ret loc1
  end.

Definition parseKML (kmlText : string) : M unit :=
  try_catch_finally
    (setIsLoading true ;;
     kmlDoc ← call (parseFromString kmlText "text/xml");
     converted ← call (kml kmlDoc);
     loc ← forEach (features converted) processFeature {| counts := ∅; lengths := ∅ |};
     setGeojsonData (Some converted) ;;
     setElementCounts (counts loc) ;;
     setLineLengths (lengths loc))
    (fun error => alert ("Error parsing KML file: " ++ message error))
    (setIsLoading false).

(** ** File acquisition *)

(** The part of a change event the handler reads: [e.target.files]. *)
Record ChangeEvent := { target_files : list File }.
(** The part of a drop event the handler reads: [e.dataTransfer.files]. *)
Record DragEvent := { dataTransfer_files : list File }.

(** [new FileReader()] with its two callbacks set, then [readAsText(file)].
    The read completes later: the host then runs [reader_onload] with the
    text, or [reader_onerror]. *)
Definition readAsText (file : File) : M unit := emit (EReadAsText file).
Definition reader_onload (result : string) : M unit := parseKML result.
Definition reader_onerror : M unit := alert "Error reading file".

Definition handleFileUpload (e : ChangeEvent) : M unit :=
  match target_files e !! 0%nat with
  | None => ret tt
  | Some file => readAsText file
  end.

Definition handleDrop (e : DragEvent) : M unit :=
  emit EPreventDefault ;;
  match dataTransfer_files e !! 0%nat with
  | None => ret tt
  | Some file => readAsText file
  end.

Definition handleDragOver : M unit := emit EPreventDefault.

(** ** View state *)

Definition clearData : M unit :=
  setGeojsonData None ;;
  setElementCounts ∅ ;;
  setLineLengths ∅ ;;
  setActiveView None.

(** [!geojsonData]: [null] is falsy, every object is truthy. *)
Definition not_object {A} (o : option A) : bool :=
  match o with
  | Some _ => false
  | None => true
  end.

(** The [disabled] attribute of the three buttons, as rendered. *)
Record Controls := {
  showSummary_disabled : bool;
  showDetails_disabled : bool;
  clearData_disabled : bool
}.

Definition render_controls (s : ViewerState) : Controls := {|
  showSummary_disabled := not_object (geojsonData s);
  showDetails_disabled := not_object (geojsonData s);
  clearData_disabled := not_object (geojsonData s)
|}.

(** ** Map *)

Definition map_fitBounds (b : Bounds) : M unit :=
  fun w => (Normal tt, {| ui := ui w; mapView := fitBounds b (mapView w);
                          trace := trace w ++ [EFitBounds b] |}).

(** [geojson?.features?.length > 0]; [undefined > 0] is false. *)
Definition has_features (geojson : option FeatureCollection) : bool :=
  match geojson with
  | Some g => (0 <? Z.of_nat (List.length (features g)))%Z
  | None => false
  end.

Definition FitBounds (geojson : option FeatureCollection) : M unit :=
  match geojson with
  | Some g =>
    if has_features geojson then
      let '(minX, minY, maxX, maxY) := bbox g in
      map_fitBounds ((minY, minX), (maxY, maxX))
    else ret tt
  | None => ret tt
  end.

(** [{geojsonData && (<> <GeoJSON .../> <FitBounds geojson={geojsonData}/> </>)}] *)
Definition render_map (s : ViewerState) : M unit :=
  if not_object (geojsonData s) then ret tt else FitBounds (geojsonData s).

(** ** Events

    What the browser delivers to the component.  A click on a disabled
    button runs no handler. *)
Inductive UiEvent :=
| InputChange (e : ChangeEvent)
| Drop (e : DragEvent)
| DragOver
| ReaderLoad (result : string)
| ReaderError
| ClickShowSummary
| ClickShowDetails
| ClickClearData.

Definition dispatch (ev : UiEvent) : M unit :=
  fun w =>
    let c := render_controls (ui w) in
    match ev with
    | InputChange e => handleFileUpload e w
    | Drop e => handleDrop e w
    | DragOver => handleDragOver w
    | ReaderLoad result => reader_onload result w
    | ReaderError => reader_onerror w
    | ClickShowSummary =>
      if showSummary_disabled c then ret tt w else setActiveView (Some "summary") w
    | ClickShowDetails =>
      if showDetails_disabled c then ret tt w else setActiveView (Some "details") w
    | ClickClearData =>
      if clearData_disabled c then ret tt w else clearData w
    end.

(** The world a handler leaves behind. *)
Definition run {A} (m : M A) (w : World) : World := (m w).2.

(** ** What one pass computes

    The locals and the log entries [processFeature] produces, as functions of
    the feature alone; [processFeature_eq] and [forEach_processFeature] below
    show that the monadic code computes exactly these. *)
Definition tally_feature (feature : Feature) (loc : Locals) : Locals :=
  match geometry_type feature with
  | None => loc
  | Some ty =>
    if falsy_type (Some ty) then loc
    else
      let c := <[ty := count_or_0 (counts loc !! ty) + 1]> (counts loc) in
      if includes ["LineString"; "MultiLineString"] ty then
        match length feature "kilometers" with
        | Normal v =>
          {| counts := c;
             lengths := <[ty := num_add (length_or_0 (lengths loc !! ty)) v]> (lengths loc) |}
        | Thrown _ => {| counts := c; lengths := lengths loc |}
        end
      else {| counts := c; lengths := lengths loc |}
  end.

Definition log_feature (feature : Feature) : list Effect :=
  match geometry_type feature with
  | None => []
  | Some ty =>
    if falsy_type (Some ty) then []
    else if includes ["LineString"; "MultiLineString"] ty then
      match length feature "kilometers" with
      | Normal _ => []
      | Thrown e => [EConsoleError "Error calculating length for feature:" e]
      end
    else []
  end.

Definition tally (fs : list Feature) (loc : Locals) : Locals :=
  foldl (fun l f => tally_feature f l) loc fs.

Definition log_all (fs : list Feature) : list Effect :=
  concat (map log_feature fs).

(** The sum of the values of a table of counts. *)
Definition sum_values (m : gmap string Z) : Z :=
  map_fold (fun _ v acc => v + acc) 0 m.

(** A feature that the metrics pass does not skip. *)
Definition has_type (feature : Feature) : bool :=
  negb (falsy_type (geometry_type feature)).

End KmlViewer.

Arguments tally_feature {JN} length feature loc.
Arguments log_feature {JN} length feature.
Arguments tally {JN} length fs loc.
Arguments log_all {JN} length fs.
Arguments parseKML {JN LF Document} parseFromString kml length kmlText.
Arguments reader_onload {JN LF Document} parseFromString kml length result.
Arguments dispatch {JN LF Document} parseFromString kml length ev.

(** ** Well-formed tables *)

Section Tables.
Context {JN : JsNumber}.

(** Only line-like keys, only values [>= 0]. *)
Definition lengths_wf (l : gmap string num) : Prop :=
  forall k v, l !! k = Some v ->
    (k = "LineString" \/ k = "MultiLineString") /\ num_nonneg v.

(** Every measured type is a counted type, and no count is below 1. *)
Definition tables_wf (c : gmap string Z) (l : gmap string num) : Prop :=
  dom l ⊆ dom c /\ forall k v, c !! k = Some v -> 1 <= v.

End Tables.

(** ** The rendered view

    What the JSX of the component shows for a state (source lines 143-285),
    without styling: the spinner, the three buttons, the two panels and the
    overlay.  A table is kept as the object it lists ([Object.entries]); a
    length cell is the number that [toFixed(2)] formats. *)

Inductive Panel (A : Type) :=
| Table (rows : gmap string A)
| Message (text : string).
Arguments Table {A} rows.
Arguments Message {A} text.

Section View.
Context {JN : JsNumber}.

Record Rendered := {
  spinner : bool;
  controls : Controls;
  summaryPanel : option (Panel Z);
  detailsPanel : option (Panel num);
  overlay : option FeatureCollection
}.

(** [activeView === 'summary'] *)
Definition strict_eq (v : option string) (s : string) : bool :=
  match v with
  | Some x => String.eqb x s
  | None => false
  end.

(** [Object.keys(obj).length > 0] *)
Definition has_keys {A} (obj : gmap string A) : bool :=
  (0 <? Z.of_nat (size obj))%Z.

Definition render (s : ViewerState) : Rendered := {|
  spinner := isLoading s;
  controls := render_controls s;
  summaryPanel :=
    if strict_eq (activeView s) "summary" then
      Some (if has_keys (elementCounts s) then Table (elementCounts s)
            else Message "No elements found in KML file")
    else None;
  detailsPanel :=
    if strict_eq (activeView s) "details" then
      Some (if has_keys (lineLengths s) then Table (lineLengths s)
            else Message "No line elements found in KML file")
    else None;
  overlay := if not_object (geojsonData s) then None else geojsonData s
|}.

End View.

(** ** Sequences of events *)

Section Sessions.
Context {JN : JsNumber} {LF : Leaflet}.
Variable Document : Type.
Variable parseFromString : string -> string -> Outcome Document.
Variable kml : Document -> Outcome FeatureCollection.
Variable length : Feature -> string -> Outcome num.

(** The world after the events of a session, oldest first. *)
Definition run_events (evs : list UiEvent) (w : World) : World :=
  foldl (fun w ev => run (dispatch parseFromString kml length ev) w) w evs.

(** The world in which the component is mounted. *)
Definition mounted (view : MapView) : World :=
  {| ui := initialState; mapView := view; trace := [] |}.

(** The tables belong to the collection on display. *)
Definition consistent (s : ViewerState) : Prop :=
  match geojsonData s with
  | Some fc =>
    elementCounts s = counts (tally length (features fc) {| counts := ∅; lengths := ∅ |})
    /\ lineLengths s = lengths (tally length (features fc) {| counts := ∅; lengths := ∅ |})
  | None => elementCounts s = ∅ /\ lineLengths s = ∅ /\ activeView s = None
  end.

(** The parser or the converter throws [e] on [kmlText]. *)
Definition conversion_throws (kmlText : string) (e : Error) : Prop :=
  parseFromString kmlText "text/xml" = Thrown e
  \/ exists doc, parseFromString kmlText "text/xml" = Normal doc /\ kml doc = Thrown e.

(** The event [ev] accounts for the call [x] to the host. *)
Definition explains (ev : UiEvent) (x : Effect) : Prop :=
  match x with
  | EAlert msg =>
    (ev = ReaderError /\ msg = "Error reading file")
    \/ (exists result e, ev = ReaderLoad result /\ conversion_throws result e
                         /\ msg = "Error parsing KML file: " ++ message e)
  | EConsoleError msg _ =>
    (exists result, ev = ReaderLoad result)
    /\ msg = "Error calculating length for feature:"
  | EPreventDefault => ev = DragOver \/ exists e, ev = Drop e
  | EReadAsText file =>
    (exists e, ev = InputChange e /\ target_files e !! 0%nat = Some file)
    \/ (exists e, ev = Drop e /\ dataTransfer_files e !! 0%nat = Some file)
  | EFitBounds _ => False
  end.

(** ** Reading the tables by type *)

(** The pass counts [f] under [ty]. *)
Definition typed_as (ty : string) (f : Feature) : bool :=
  match geometry_type f with
  | Some t => String.eqb t ty && negb (falsy_type (Some t))
  | None => false
  end.

(** The number of features counted under [ty]. *)
Definition type_count (ty : string) (fs : list Feature) : Z :=
  Z.of_nat (List.length (List.filter (typed_as ty) fs)).

(** The length the pass adds under [ty] for [f], if any. *)
Definition measurement (ty : string) (f : Feature) : option num :=
  if typed_as ty f && includes ["LineString"; "MultiLineString"] ty then
    match length f "kilometers" with
    | Normal v => Some v
    | Thrown _ => None
    end
  else None.

(** The exception the pass logs for [f], if any. *)
Definition failure (f : Feature) : option Error :=
  match geometry_type f with
  | Some t =>
    if negb (falsy_type (Some t)) && includes ["LineString"; "MultiLineString"] t then
      match length f "kilometers" with
      | Normal _ => None
      | Thrown e => Some e
      end
    else None
  | None => None
  end.

(** [(acc || 0) + v], with [None] for a missing key. *)
Definition accumulate (acc : option num) (v : num) : option num :=
  Some (num_add (length_or_0 acc) v).

End Sessions.

Arguments run_events {JN LF Document} parseFromString kml length evs w.
Arguments conversion_throws {JN Document} parseFromString kml kmlText e.
Arguments explains {JN Document} parseFromString kml ev x.
Arguments consistent {JN} length s.
Arguments measurement {JN} length ty f.
Arguments failure {JN} length f.

(** ** A host to compute with

    Rational kilometres for numbers, the last fitted bounds for the map
    view, and small stand-ins for the parser, the converter and turf. *)
Module Demo.

#[export] Instance Q_JsNumber : JsNumber := {|
  num := Q;
  num_zero := 0%Q;
  num_add := Qplus;
  num_truthy := fun q => negb (Qeq_bool q 0%Q);
  num_nonneg := fun q => (0 <= q)%Q;
  num_nonneg_zero := Qle_refl 0%Q;
  num_nonneg_add := fun a b Ha Hb => Qplus_le_compat 0%Q a 0%Q b Ha Hb
|}.

(** [None] is the initial view (centre [0, 0], zoom 2). *)
#[export] Instance Fitted_Leaflet : Leaflet := {|
  MapView := option Bounds;
  fitBounds := fun b _ => Some b
|}.

Definition point (name : string) (lon lat : Q) : Feature :=
  {| geometry := Some {| type := "Point"; coordinates := [[(lon, lat)]] |};
     properties := {[ "name" := name ]} |}.

Definition line (ty : string) (path : list (Q * Q)) : Feature :=
  {| geometry := Some {| type := ty; coordinates := [path] |};
     properties := ∅ |}.

(** A placemark without geometry. *)
Definition bare : Feature := {| geometry := None; properties := ∅ |}.

(** A line the measurement rejects: it has no coordinates. *)
Definition damaged : Feature :=
  {| geometry := Some {| type := "LineString"; coordinates := [] |};
     properties := ∅ |}.

(** Three points and two lines of 5 km and 10 km. *)
Definition trail : FeatureCollection :=
  {| features := [ point "a" 0 0; point "b" 1 1; point "c" 2 2;
                   line "LineString" [(0, 0); (5, 0)];
                   line "LineString" [(0, 1); (10, 1)] ]%Q |}.

Definition parseFromString (text mime : string) : Outcome string :=
  if String.prefix "<" text then Normal text
  else Thrown {| message := "not well-formed" |}.

Definition kml (doc : string) : Outcome FeatureCollection :=
  if String.eqb doc "<kml>trail</kml>" then Normal trail
  else if String.eqb doc "<kml>bare</kml>" then Normal {| features := [bare] |}
  else if String.eqb doc "<kml>damaged</kml>" then
    Normal {| features := [ line "LineString" [(0, 0); (5, 0)]; damaged;
                            line "MultiLineString" [(0, 1); (10, 1)];
                            point "d" 3 3 ]%Q |}
  else if String.eqb doc "<html/>" then Thrown {| message := "no kml element" |}
  else Normal {| features := [] |}.

(** The distance in longitude between the ends of the first path. *)
Definition length (feature : Feature) (units : string) : Outcome Q :=
  match geometry feature with
  | Some g =>
    match coordinates g with
    | (p :: ps) :: _ => Normal (Qabs ((List.last ps p).1 - p.1))
    | _ => Thrown {| message := "coordinates must contain numbers" |}
    end
  | None => Thrown {| message := "geometry is required" |}
  end.

(** The box around all positions of all features. *)
Definition bbox (fc : FeatureCollection) : Q * Q * Q * Q :=
  let positions := concat (map (fun f =>
                     match geometry f with
                     | Some g => concat (coordinates g)
                     | None => []
                     end) (features fc)) in
  match positions with
  | [] => (0, 0, 0, 0)%Q
  | p :: ps =>
    foldl (fun '(minX, minY, maxX, maxY) q =>
             (Qmin minX q.1, Qmin minY q.2, Qmax maxX q.1, Qmax maxY q.2))
          (p.1, p.2, p.1, p.2) ps
  end.

Definition world0 : World :=
  {| ui := initialState; mapView := None; trace := [] |}.

End Demo.

(** The demo converter, with one more text: the trail walked backwards. *)
Module DemoReversed.

Definition kml (doc : string) : Outcome FeatureCollection :=
  if String.eqb doc "<kml>liart</kml>" then
    Normal {| features := rev (features Demo.trail) |}
  else Demo.kml doc.

End DemoReversed.

(** * Properties *)

Section Facts.
Context {JN : JsNumber} {LF : Leaflet}.
Variable Document : Type.
Variable parseFromString : string -> string -> Outcome Document.
Variable kml : Document -> Outcome FeatureCollection.
Variable length : Feature -> string -> Outcome num.
Variable bbox : FeatureCollection -> num * num * num * num.

(** ** The trace *)

Lemma log_to_nil (w : World) : log_to w [] = w.
Proof. destruct w as [s v t]. unfold log_to. simpl. by rewrite app_nil_r. Qed.

Lemma log_to_app (w : World) (es1 es2 : list Effect) :
  log_to (log_to w es1) es2 = log_to w (es1 ++ es2).
Proof. unfold log_to. simpl. by rewrite app_assoc. Qed.

(** ** The monadic pass computes [tally] and [log_all] *)

Ltac unfold_monad :=
  unfold try_catch_finally, try_catch, mbind, M_bind, bind, mret, M_ret, ret, call,
    alert, console_error, emit, setGeojsonData, setElementCounts, setLineLengths,
    setActiveView, setIsLoading, modify_ui in *.

Lemma processFeature_eq (f : Feature) (loc : Locals) (w : World) :
  processFeature length f loc w
  = (Normal (tally_feature length f loc), log_to w (log_feature length f)).
Proof.
  unfold processFeature, tally_feature, log_feature.
  destruct (geometry_type f) as [ty|]; [|by rewrite log_to_nil].
  destruct (falsy_type (Some ty)); [by rewrite log_to_nil|].
  destruct (includes _ ty); [|by rewrite log_to_nil].
  unfold_monad. simpl.
  destruct (length f "kilometers") as [v|e]; [by rewrite log_to_nil|done].
Qed.

Lemma forEach_processFeature (fs : list Feature) (loc : Locals) (w : World) :
  forEach fs (processFeature length) loc w
  = (Normal (tally length fs loc), log_to w (log_all length fs)).
Proof.
  revert loc w. induction fs as [|f fs IH]; intros loc w.
  - simpl. unfold_monad. by rewrite log_to_nil.
  - simpl. unfold mbind, M_bind, bind. rewrite processFeature_eq, IH, log_to_app.
    reflexivity.
Qed.

(** What [parseKML] leaves behind when the conversion succeeded. *)
Lemma parseKML_converted (kmlText : string) (doc : Document)
    (converted : FeatureCollection) (w : World) :
  parseFromString kmlText "text/xml" = Normal doc ->
  kml doc = Normal converted ->
  parseKML parseFromString kml length kmlText w
  = (Normal tt,
     {| ui := {| geojsonData := Some converted;
                 elementCounts := counts (tally length (features converted)
                                            {| counts := ∅; lengths := ∅ |});
                 lineLengths := lengths (tally length (features converted)
                                           {| counts := ∅; lengths := ∅ |});
                 activeView := activeView (ui w);
                 isLoading := false |};
        mapView := mapView w;
        trace := trace w ++ log_all length (features converted) |}).
Proof.
  intros Hdoc Hkml. unfold parseKML.
  unfold try_catch_finally, try_catch, mbind, M_bind, bind, call.
  unfold setIsLoading at 1. unfold modify_ui at 1.
  rewrite Hdoc, Hkml, forEach_processFeature.
  reflexivity.
Qed.

(** What [parseKML] leaves behind when the parser or the converter threw. *)
Lemma parseKML_thrown (kmlText : string) (e : Error) (w : World) :
  (parseFromString kmlText "text/xml" = Thrown e
   \/ exists doc, parseFromString kmlText "text/xml" = Normal doc /\ kml doc = Thrown e) ->
  parseKML parseFromString kml length kmlText w
  = (Normal tt,
     {| ui := {| geojsonData := geojsonData (ui w);
                 elementCounts := elementCounts (ui w);
                 lineLengths := lineLengths (ui w);
                 activeView := activeView (ui w);
                 isLoading := false |};
        mapView := mapView w;
        trace := trace w ++ [EAlert ("Error parsing KML file: " ++ message e)] |}).
Proof.
  intros [Hdoc | (doc & Hdoc & Hkml)]; unfold parseKML;
    unfold try_catch_finally, try_catch, mbind, M_bind, bind, call;
    unfold setIsLoading at 1; unfold modify_ui at 1;
    rewrite Hdoc; [|rewrite Hkml]; reflexivity.
Qed.

(** ** Reading the tables *)

Lemma tally_app (fs1 fs2 : list Feature) (loc : Locals) :
  tally length (fs1 ++ fs2) loc = tally length fs2 (tally length fs1 loc).
Proof. unfold tally. apply foldl_app. Qed.

Lemma tally_cons (f : Feature) (fs : list Feature) (loc : Locals) :
  tally length (f :: fs) loc = tally length fs (tally_feature length f loc).
Proof. reflexivity. Qed.

(** An invariant of the step is an invariant of the pass. *)
Lemma tally_invariant (P : Locals -> Prop) (fs : list Feature) (loc : Locals) :
  (forall f l, P l -> P (tally_feature length f l)) ->
  P loc -> P (tally length fs loc).
Proof.
  intros Hstep. revert loc. induction fs as [|f fs IH]; intros loc Hloc; [done|].
  rewrite tally_cons. apply IH, Hstep, Hloc.
Qed.

Lemma count_or_0_Some (v : Z) : count_or_0 (Some v) = v.
Proof. unfold count_or_0. destruct (Z.eqb_spec v 0); lia. Qed.

Lemma sum_values_insert_fresh (m : gmap string Z) (k : string) (v : Z) :
  m !! k = None -> sum_values (<[k:=v]> m) = v + sum_values m.
Proof.
  intros Hk. unfold sum_values.
  apply (map_fold_insert_L (fun _ v acc => v + acc)); [intros; lia | done].
Qed.

Lemma sum_values_delete (m : gmap string Z) (k : string) (v : Z) :
  m !! k = Some v -> sum_values m = v + sum_values (delete k m).
Proof.
  intros Hk. unfold sum_values.
  apply (map_fold_delete_L (fun _ v acc => v + acc)); [intros; lia | done].
Qed.

(** [counts[type] = (counts[type] || 0) + 1] adds one to the sum. *)
Lemma sum_values_counted (m : gmap string Z) (k : string) :
  sum_values (<[k := count_or_0 (m !! k) + 1]> m) = sum_values m + 1.
Proof.
  destruct (m !! k) as [v|] eqn:Hk.
  - rewrite count_or_0_Some, <- insert_delete_eq.
    rewrite sum_values_insert_fresh by apply lookup_delete_eq.
    rewrite (sum_values_delete m k v Hk). lia.
  - rewrite sum_values_insert_fresh by done. simpl. lia.
Qed.

Lemma sum_values_tally_feature (f : Feature) (loc : Locals) :
  sum_values (counts (tally_feature length f loc))
  = sum_values (counts loc) + (if has_type f then 1 else 0).
Proof.
  unfold tally_feature, has_type.
  destruct (geometry_type f) as [ty|]; [|simpl; lia].
  unfold falsy_type. destruct (decide (ty = "")); [simpl; lia|].
  destruct (includes ["LineString"; "MultiLineString"] ty);
    [destruct (length f "kilometers")|]; cbn [counts negb];
    apply sum_values_counted.
Qed.

Lemma sum_values_tally (fs : list Feature) (loc : Locals) :
  sum_values (counts (tally length fs loc))
  = sum_values (counts loc) + Z.of_nat (List.length (List.filter has_type fs)).
Proof.
  revert loc. induction fs as [|f fs IH]; intros loc; [simpl; lia|].
  rewrite tally_cons, IH, sum_values_tally_feature. simpl.
  destruct (has_type f); simpl List.length; lia.
Qed.

Lemma filter_has_type_all (fs : list Feature) :
  List.length (List.filter has_type fs) = List.length fs
  <-> Forall (fun f => has_type f = true) fs.
Proof.
  induction fs as [|f fs IH]; simpl; [by split|].
  pose proof (List.filter_length_le has_type fs) as Hle.
  destruct (has_type f) eqn:Hf; simpl; split.
  - intros Hlen. constructor; [done|]. apply IH. lia.
  - intros Hall. inversion Hall; subst. f_equal. by apply IH.
  - intros Hlen. lia.
  - intros Hall. inversion Hall; subst. congruence.
Qed.

(** ** Counting *)

(** C1, as amended: when the conversion succeeds, the values of
    ElementCounts sum to the number of features that have a geometry type
    (the features the pass does not skip); the sum is the total number of
    features exactly when every feature has a geometry type. *)
Theorem C1_counts_sum_to_typed_features (kmlText : string) (doc : Document)
    (converted : FeatureCollection) (w : World) :
  parseFromString kmlText "text/xml" = Normal doc ->
  kml doc = Normal converted ->
  let total := sum_values (elementCounts
                 (ui (run (parseKML parseFromString kml length kmlText) w))) in
  total = Z.of_nat (List.length (List.filter has_type (features converted)))
  /\ (total = Z.of_nat (List.length (features converted))
      <-> Forall (fun f => has_type f = true) (features converted)).
Proof.
  intros Hdoc Hkml. cbv zeta. unfold run.
  rewrite (parseKML_converted _ _ _ _ Hdoc Hkml). simpl.
  rewrite sum_values_tally. simpl.
  assert (sum_values ∅ = 0) as -> by reflexivity.
  split; [lia|].
  rewrite <- filter_has_type_all. lia.
Qed.

(** ** Failure of the conversion *)

(** C2: when the parser or the converter throws, [parseKML] returns
    normally, shows one alert whose text ends with the message of the
    exception, and leaves FeatureCollection, ElementCounts, LineLengths, the
    view mode and the map view as they were. *)
Theorem C2_failed_conversion_alerts_and_keeps_data (kmlText : string)
    (e : Error) (w : World) :
  (parseFromString kmlText "text/xml" = Thrown e
   \/ exists doc, parseFromString kmlText "text/xml" = Normal doc
                  /\ kml doc = Thrown e) ->
  let r := parseKML parseFromString kml length kmlText w in
  r.1 = Normal tt
  /\ trace r.2 = (trace w ++ [EAlert ("Error parsing KML file: " ++ message e)])%list
  /\ geojsonData (ui r.2) = geojsonData (ui w)
  /\ elementCounts (ui r.2) = elementCounts (ui w)
  /\ lineLengths (ui r.2) = lineLengths (ui w)
  /\ activeView (ui r.2) = activeView (ui w)
  /\ mapView r.2 = mapView w
  /\ isLoading (ui r.2) = false.
Proof.
  intros Hthrown. cbv zeta. rewrite (parseKML_thrown _ _ _ Hthrown). simpl.
  repeat split.
Qed.

(** ** A measurement that throws *)

Lemma includes_line_like (ty : string) :
  includes ["LineString"; "MultiLineString"] ty = true ->
  ty = "LineString" \/ ty = "MultiLineString".
Proof.
  unfold includes. simpl.
  destruct (String.eqb_spec ty "LineString"); [by left|].
  destruct (String.eqb_spec ty "MultiLineString"); [by right|done].
Qed.

(** The step at a line-like feature whose measurement throws. *)
Lemma tally_feature_thrown (f : Feature) (ty : string) (e : Error) (loc : Locals) :
  geometry_type f = Some ty -> ty <> "" ->
  includes ["LineString"; "MultiLineString"] ty = true ->
  length f "kilometers" = Thrown e ->
  tally_feature length f loc
  = {| counts := <[ty := count_or_0 (counts loc !! ty) + 1]> (counts loc);
       lengths := lengths loc |}
  /\ log_feature length f = [EConsoleError "Error calculating length for feature:" e].
Proof.
  intros Hty Hne Hline Hlen. unfold tally_feature, log_feature, falsy_type.
  rewrite Hty. destruct (decide (ty = "")); [done|].
  by rewrite Hline, Hlen.
Qed.

(** The lengths a step leaves depend on the lengths it found only. *)
Lemma lengths_tally_feature_ext (f : Feature) (loc loc' : Locals) :
  lengths loc = lengths loc' ->
  lengths (tally_feature length f loc) = lengths (tally_feature length f loc').
Proof.
  intros Heq. unfold tally_feature.
  destruct (geometry_type f) as [ty|]; [|done].
  destruct (falsy_type (Some ty)); [done|].
  destruct (includes ["LineString"; "MultiLineString"] ty); [|done].
  destruct (length f "kilometers"); cbn [lengths]; by rewrite Heq.
Qed.

Lemma lengths_tally_ext (fs : list Feature) (loc loc' : Locals) :
  lengths loc = lengths loc' ->
  lengths (tally length fs loc) = lengths (tally length fs loc').
Proof.
  revert loc loc'. induction fs as [|f fs IH]; intros loc loc' Heq; [done|].
  rewrite !tally_cons. by apply IH, lengths_tally_feature_ext.
Qed.

(** The pass only ever writes to the console. *)
Lemma log_all_console (fs : list Feature) (ev : Effect) :
  ev ∈ log_all length fs -> exists msg e, ev = EConsoleError msg e.
Proof.
  induction fs as [|f fs IH]; [by intros Hev%elem_of_nil|].
  unfold log_all. simpl. fold (log_all length fs).
  intros [Hev | Hev]%elem_of_app; [|by apply IH].
  unfold log_feature in Hev.
  destruct (geometry_type f) as [ty|]; [|by apply elem_of_nil in Hev].
  destruct (falsy_type (Some ty)); [by apply elem_of_nil in Hev|].
  destruct (includes ["LineString"; "MultiLineString"] ty);
    [|by apply elem_of_nil in Hev].
  destruct (length f "kilometers") as [v|e]; [by apply elem_of_nil in Hev|].
  apply list_elem_of_singleton in Hev. eauto.
Qed.

(** C3: when turf's [length] throws for one line-like feature [f] of the
    converted collection, [parseKML] still returns normally with the
    collection stored and the loading flag cleared; the exception is written
    to the console and nothing but console entries is added to the trace (no
    alert); LineLengths is what the pass computes for the collection with
    [f] left out; and the features after [f] are processed from the locals
    in which [f] has been counted and not measured. *)
Theorem C3_failed_measurement_is_logged_and_skipped (kmlText : string)
    (doc : Document) (fs1 fs2 : list Feature) (f : Feature) (ty : string)
    (e : Error) (w : World) :
  parseFromString kmlText "text/xml" = Normal doc ->
  kml doc = Normal {| features := fs1 ++ f :: fs2 |} ->
  geometry_type f = Some ty -> ty <> "" ->
  includes ["LineString"; "MultiLineString"] ty = true ->
  length f "kilometers" = Thrown e ->
  let r := parseKML parseFromString kml length kmlText w in
  let empty := {| counts := ∅; lengths := ∅ |} in
  r.1 = Normal tt
  /\ geojsonData (ui r.2) = Some {| features := fs1 ++ f :: fs2 |}
  /\ isLoading (ui r.2) = false
  /\ (exists log, trace r.2 = (trace w ++ log)%list
        /\ EConsoleError "Error calculating length for feature:" e ∈ log
        /\ forall ev, ev ∈ log -> exists msg e', ev = EConsoleError msg e')
  /\ (forall w0, exists loc w1,
        forEach (fs1 ++ fs2) (processFeature length) empty w0 = (Normal loc, w1)
        /\ lineLengths (ui r.2) = lengths loc)
  /\ (forall w0, exists loc1 w1 loc3 w3,
        forEach fs1 (processFeature length) empty w0 = (Normal loc1, w1)
        /\ forEach fs2 (processFeature length)
             {| counts := <[ty := count_or_0 (counts loc1 !! ty) + 1]> (counts loc1);
                lengths := lengths loc1 |} w1 = (Normal loc3, w3)
        /\ elementCounts (ui r.2) = counts loc3
        /\ lineLengths (ui r.2) = lengths loc3).
Proof.
  intros Hdoc Hkml Hty Hne Hline Hlen. cbv zeta.
  rewrite (parseKML_converted _ _ _ _ Hdoc Hkml). cbn [fst snd ui trace features
    geojsonData isLoading elementCounts lineLengths].
  destruct (tally_feature_thrown f ty e
              (tally length fs1 {| counts := ∅; lengths := ∅ |}) Hty Hne Hline Hlen)
    as [Hstep Hlog].
  rewrite tally_app, tally_cons, Hstep.
  split; [done|]. split; [done|]. split; [done|]. split; [|split].
  - exists (log_all length (fs1 ++ f :: fs2)). split; [done|]. split.
    + unfold log_all. rewrite map_app, concat_app. simpl. rewrite Hlog.
      apply elem_of_app. right. constructor.
    + apply log_all_console.
  - intros w0. eexists _, _. split; [apply forEach_processFeature|].
    rewrite tally_app. by apply lengths_tally_ext.
  - intros w0. eexists _, _, _, _. split; [apply forEach_processFeature|].
    split; [apply forEach_processFeature|]. done.
Qed.

(** A conversion that returns a collection without features is a success:
    no alert, and the three cells are overwritten. *)
Lemma parseKML_no_features (kmlText : string) (doc : Document) (w : World) :
  parseFromString kmlText "text/xml" = Normal doc ->
  kml doc = Normal {| features := [] |} ->
  parseKML parseFromString kml length kmlText w
  = (Normal tt,
     {| ui := {| geojsonData := Some {| features := [] |};
                 elementCounts := ∅; lineLengths := ∅;
                 activeView := activeView (ui w); isLoading := false |};
        mapView := mapView w;
        trace := trace w |}).
Proof.
  intros Hdoc Hkml. rewrite (parseKML_converted _ _ _ _ Hdoc Hkml). simpl.
  by rewrite app_nil_r.
Qed.

(** ** Invariants of the tables *)

(** After [parseKML] the three data cells are either the result of the pass
    over the converted collection, or what they were. *)
Lemma parseKML_data (kmlText : string) (w : World) :
  let s' := ui (run (parseKML parseFromString kml length kmlText) w) in
  (exists converted,
     geojsonData s' = Some converted
     /\ elementCounts s' = counts (tally length (features converted)
                                     {| counts := ∅; lengths := ∅ |})
     /\ lineLengths s' = lengths (tally length (features converted)
                                    {| counts := ∅; lengths := ∅ |}))
  \/ (geojsonData s' = geojsonData (ui w)
      /\ elementCounts s' = elementCounts (ui w)
      /\ lineLengths s' = lineLengths (ui w)).
Proof.
  cbv zeta. unfold run.
  destruct (parseFromString kmlText "text/xml") as [doc|e] eqn:Hdoc.
  - destruct (kml doc) as [converted|e] eqn:Hkml.
    + left. exists converted. by rewrite (parseKML_converted _ _ _ _ Hdoc Hkml).
    + right. rewrite (parseKML_thrown kmlText e w); [done|]. right. eauto.
  - right. rewrite (parseKML_thrown kmlText e w); [done|]. by left.
Qed.

Lemma length_or_0_nonneg (l : gmap string num) (k : string) :
  lengths_wf l -> num_nonneg (length_or_0 (l !! k)).
Proof.
  intros Hwf. unfold length_or_0.
  destruct (l !! k) as [v|] eqn:Hk; [|apply num_nonneg_zero].
  destruct (num_truthy v); [|apply num_nonneg_zero].
  by apply (Hwf k v).
Qed.

Lemma lengths_wf_tally_feature (f : Feature) (loc : Locals) :
  (forall g u v, length g u = Normal v -> num_nonneg v) ->
  lengths_wf (lengths loc) -> lengths_wf (lengths (tally_feature length f loc)).
Proof.
  intros Hlen Hwf. unfold tally_feature.
  destruct (geometry_type f) as [ty|]; [|done].
  destruct (falsy_type (Some ty)); [done|].
  destruct (includes ["LineString"; "MultiLineString"] ty) eqn:Hline; [|done].
  destruct (length f "kilometers") as [v|e] eqn:Hv; [|done].
  cbn [lengths]. intros k x Hk.
  destruct (decide (ty = k)) as [<-|Hne].
  - rewrite lookup_insert_eq in Hk. injection Hk as <-.
    split; [by apply includes_line_like|].
    apply num_nonneg_add; [by apply length_or_0_nonneg | by eapply Hlen].
  - rewrite lookup_insert_ne in Hk by done. by apply Hwf.
Qed.

Lemma lengths_wf_empty : lengths_wf (∅ : gmap string num).
Proof. intros k v Hk. by rewrite lookup_empty in Hk. Qed.

Lemma lengths_wf_tally (fs : list Feature) :
  (forall g u v, length g u = Normal v -> num_nonneg v) ->
  lengths_wf (lengths (tally length fs {| counts := ∅; lengths := ∅ |})).
Proof.
  intros Hlen.
  apply (tally_invariant (fun l => lengths_wf (lengths l)));
    [intros; by apply lengths_wf_tally_feature | apply lengths_wf_empty].
Qed.

(** C4: provided turf's [length] only returns values [>= 0], the lengths
    object the pass builds has no key other than LineString and
    MultiLineString and no value below zero; and [parseKML], whatever the
    text, takes a state whose LineLengths has that shape to a state whose
    LineLengths has it. *)
Theorem C4_lineLengths_line_like_and_nonneg :
  (forall g u v, length g u = Normal v -> num_nonneg v) ->
  (forall fs w, exists loc w',
     forEach fs (processFeature length) {| counts := ∅; lengths := ∅ |} w
     = (Normal loc, w')
     /\ lengths_wf (lengths loc))
  /\ (forall kmlText w,
       lengths_wf (lineLengths (ui w)) ->
       lengths_wf (lineLengths
                     (ui (run (parseKML parseFromString kml length kmlText) w)))).
Proof.
  intros Hlen. split.
  - intros fs w. eexists _, _. split; [apply forEach_processFeature|].
    by apply lengths_wf_tally.
  - intros kmlText w Hwf.
    destruct (parseKML_data kmlText w) as [(fc & _ & _ & ->) | (_ & _ & ->)];
      [by apply lengths_wf_tally | done].
Qed.

Lemma tables_wf_tally_feature (f : Feature) (loc : Locals) :
  tables_wf (counts loc) (lengths loc) ->
  tables_wf (counts (tally_feature length f loc)) (lengths (tally_feature length f loc)).
Proof.
  intros [Hdom Hpos]. unfold tally_feature.
  destruct (geometry_type f) as [ty|]; [|done].
  destruct (falsy_type (Some ty)); [done|].
  assert (forall k v,
            <[ty := count_or_0 (counts loc !! ty) + 1]> (counts loc) !! k = Some v ->
            1 <= v) as Hpos'.
  { intros k v Hk. destruct (decide (ty = k)) as [<-|Hne].
    - rewrite lookup_insert_eq in Hk. injection Hk as <-.
      destruct (counts loc !! ty) as [c|] eqn:Hc; [|simpl; lia].
      rewrite count_or_0_Some. specialize (Hpos ty c Hc). lia.
    - rewrite lookup_insert_ne in Hk by done. by apply (Hpos k). }
  destruct (includes ["LineString"; "MultiLineString"] ty);
    [destruct (length f "kilometers")|]; cbn [counts lengths];
    (split; [|done]); rewrite ?dom_insert_L;
    [apply union_mono_l, Hdom | apply union_subseteq_r', Hdom ..].
Qed.

Lemma tables_wf_tally (fs : list Feature) :
  let loc := tally length fs {| counts := ∅; lengths := ∅ |} in
  tables_wf (counts loc) (lengths loc).
Proof.
  cbv zeta.
  apply (tally_invariant (fun l => tables_wf (counts l) (lengths l)));
    [intros; by apply tables_wf_tally_feature|].
  split; simpl; [done|]. intros k v Hk. by rewrite lookup_empty in Hk.
Qed.

(** C9: in the locals the pass builds, every key of [lengths] is a key of
    [counts] and every count is at least 1; and [parseKML], whatever the
    text, takes a state whose two tables are related in that way to a state
    whose tables are. *)
Theorem C9_lengths_keys_counted_and_counts_positive :
  (forall fs w, exists loc w',
     forEach fs (processFeature length) {| counts := ∅; lengths := ∅ |} w
     = (Normal loc, w')
     /\ dom (lengths loc) ⊆ dom (counts loc)
     /\ forall k v, counts loc !! k = Some v -> 1 <= v)
  /\ (forall kmlText w,
       tables_wf (elementCounts (ui w)) (lineLengths (ui w)) ->
       let s' := ui (run (parseKML parseFromString kml length kmlText) w) in
       tables_wf (elementCounts s') (lineLengths s')).
Proof.
  split.
  - intros fs w. eexists _, _. split; [apply forEach_processFeature|].
    apply tables_wf_tally.
  - intros kmlText w Hwf. cbv zeta.
    destruct (parseKML_data kmlText w) as [(fc & _ & -> & ->) | (_ & -> & ->)];
      [apply tables_wf_tally | done].
Qed.

(** ** Counting does not depend on measuring *)

Lemma counts_tally_feature_ext (length' : Feature -> string -> Outcome num)
    (f : Feature) (loc loc' : Locals) :
  counts loc = counts loc' ->
  counts (tally_feature length f loc) = counts (tally_feature length' f loc').
Proof.
  intros Heq. unfold tally_feature.
  destruct (geometry_type f) as [ty|]; [|done].
  destruct (falsy_type (Some ty)); [done|].
  destruct (includes ["LineString"; "MultiLineString"] ty);
    [destruct (length f "kilometers"), (length' f "kilometers")|];
    cbn [counts]; by rewrite Heq.
Qed.

Lemma counts_tally_ext (length' : Feature -> string -> Outcome num)
    (fs : list Feature) (loc loc' : Locals) :
  counts loc = counts loc' ->
  counts (tally length fs loc) = counts (tally length' fs loc').
Proof.
  revert loc loc'. induction fs as [|f fs IH]; intros loc loc' Heq; [done|].
  rewrite !tally_cons. by apply IH, counts_tally_feature_ext.
Qed.

(** ** Clearing *)

(** C5: [clearData] returns normally and sets FeatureCollection to [null],
    ElementCounts and LineLengths to the empty object and the view mode to
    [null], whatever they were; it touches neither the map nor the host;
    when data is loaded the Clear button runs it; and in the state it
    leaves, the three buttons are rendered disabled, so that a click on any
    of them changes nothing. *)
Theorem C5_clear_resets_and_disables (w : World) :
  let r := clearData w in
  r.1 = Normal tt
  /\ ui r.2 = {| geojsonData := None; elementCounts := ∅; lineLengths := ∅;
                 activeView := None; isLoading := isLoading (ui w) |}
  /\ mapView r.2 = mapView w
  /\ trace r.2 = trace w
  /\ (geojsonData (ui w) <> None ->
      dispatch parseFromString kml length ClickClearData w = r)
  /\ render_controls (ui r.2)
     = {| showSummary_disabled := true; showDetails_disabled := true;
          clearData_disabled := true |}
  /\ dispatch parseFromString kml length ClickShowSummary r.2 = (Normal tt, r.2)
  /\ dispatch parseFromString kml length ClickShowDetails r.2 = (Normal tt, r.2)
  /\ dispatch parseFromString kml length ClickClearData r.2 = (Normal tt, r.2).
Proof.
  cbv zeta. repeat split.
  intros Hloaded. unfold dispatch, render_controls. simpl.
  destruct (geojsonData (ui w)); [reflexivity | done].
Qed.

(** ** Parsing twice *)

(** C6: with the converter and turf's [length] being functions of their
    arguments, parsing a text a second time leaves ElementCounts and
    LineLengths (and the collection) as the first parse left them, from any
    starting state; and when the text converts, the two tables do not
    depend on the state the parse started from. *)
Theorem C6_parsing_twice_gives_same_tables (kmlText : string) :
  (forall w,
     let w1 := run (parseKML parseFromString kml length kmlText) w in
     let w2 := run (parseKML parseFromString kml length kmlText) w1 in
     elementCounts (ui w2) = elementCounts (ui w1)
     /\ lineLengths (ui w2) = lineLengths (ui w1)
     /\ geojsonData (ui w2) = geojsonData (ui w1))
  /\ (forall doc converted w w',
       parseFromString kmlText "text/xml" = Normal doc ->
       kml doc = Normal converted ->
       let s1 := ui (run (parseKML parseFromString kml length kmlText) w) in
       let s2 := ui (run (parseKML parseFromString kml length kmlText) w') in
       elementCounts s1 = elementCounts s2 /\ lineLengths s1 = lineLengths s2).
Proof.
  split.
  - intros w. cbv zeta. unfold run.
    destruct (parseFromString kmlText "text/xml") as [doc|e] eqn:Hdoc.
    + destruct (kml doc) as [converted|e] eqn:Hkml.
      * by rewrite !(parseKML_converted _ _ _ _ Hdoc Hkml).
      * assert (parseFromString kmlText "text/xml" = Thrown e
                \/ exists doc, parseFromString kmlText "text/xml" = Normal doc
                               /\ kml doc = Thrown e) as Hthrown by eauto.
        by rewrite !(parseKML_thrown _ _ _ Hthrown).
    + by rewrite !(parseKML_thrown kmlText e _ (or_introl Hdoc)).
  - intros doc converted w w' Hdoc Hkml. cbv zeta. unfold run.
    by rewrite !(parseKML_converted _ _ _ _ Hdoc Hkml).
Qed.

(** ** Fitting the map *)

(** C7: [FitBounds] returns normally; for a collection without features,
    and for [null], it leaves the world, map view included, as it was; for a
    collection with a feature it calls [fitBounds] once with the corners of
    the bounding box; so a changed trace or a changed map view means that
    the collection has a feature. *)
Theorem C7_fitBounds_only_with_features (geojson : option FeatureCollection)
    (w : World) :
  let r := FitBounds bbox geojson w in
  r.1 = Normal tt
  /\ (forall g, geojson = Some g -> features g = [] -> r.2 = w)
  /\ (geojson = None -> r.2 = w)
  /\ (forall g, geojson = Some g -> features g <> [] ->
      let '(minX, minY, maxX, maxY) := bbox g in
      r.2 = {| ui := ui w;
               mapView := fitBounds ((minY, minX), (maxY, maxX)) (mapView w);
               trace := trace w ++ [EFitBounds ((minY, minX), (maxY, maxX))] |})
  /\ (trace r.2 <> trace w \/ mapView r.2 <> mapView w ->
      exists g, geojson = Some g /\ features g <> []).
Proof.
  cbv zeta. unfold FitBounds, has_features.
  destruct geojson as [g|];
    [|repeat split; try done; by intros [Hne | Hne]].
  destruct (features g) as [|f fs] eqn:Hfs.
  - simpl. repeat split; try done.
    + intros g' [= <-] Hne. by rewrite Hfs in Hne.
    + by intros [Hne | Hne].
  - cbn [List.length]. rewrite Nat2Z.inj_succ.
    replace (0 <? Z.succ (Z.of_nat (List.length fs)))%Z with true
      by (symmetry; apply Z.ltb_lt; lia).
    destruct (bbox g) as [[[minX minY] maxX] maxY] eqn:Hbox.
    repeat split; try done.
    + intros g' [= <-] Hnil. by rewrite Hfs in Hnil.
    + intros g' [= <-] _. by rewrite Hbox.
    + intros _. exists g. by rewrite Hfs.
Qed.

(** ** Events without a file *)

(** C8: a change event and a drop event whose file list is empty make the
    handlers return normally without starting a read and without an alert:
    the component state and the map are unchanged, the change handler adds
    nothing to the trace and the drop handler adds only its
    [preventDefault]. *)
Theorem C8_no_file_no_read (w : World) :
  handleFileUpload {| target_files := [] |} w = (Normal tt, w)
  /\ dispatch parseFromString kml length (InputChange {| target_files := [] |}) w
     = (Normal tt, w)
  /\ (let r := handleDrop {| dataTransfer_files := [] |} w in
      r.1 = Normal tt
      /\ ui r.2 = ui w
      /\ mapView r.2 = mapView w
      /\ trace r.2 = (trace w ++ [EPreventDefault])%list
      /\ dispatch parseFromString kml length
           (Drop {| dataTransfer_files := [] |}) w = r).
Proof. cbv zeta. repeat split. Qed.

End Facts.

(** C10: at a line-like feature whose measurement throws, [processFeature]
    returns normally with the count of the feature's type raised by one and
    the lengths untouched; and the ElementCounts that [parseKML] stores is
    the same for any two measuring functions, whichever of their calls
    throw. *)
Theorem C10_failed_measurement_still_counted {JN : JsNumber} {LF : Leaflet}
    (Document : Type) (parseFromString : string -> string -> Outcome Document)
    (kml : Document -> Outcome FeatureCollection)
    (length : Feature -> string -> Outcome num) :
  (forall f ty e loc w,
     geometry_type f = Some ty -> ty <> "" ->
     includes ["LineString"; "MultiLineString"] ty = true ->
     length f "kilometers" = Thrown e ->
     exists w',
       processFeature length f loc w
       = (Normal {| counts := <[ty := count_or_0 (counts loc !! ty) + 1]> (counts loc);
                    lengths := lengths loc |}, w'))
  /\ (forall (length' : Feature -> string -> Outcome num) kmlText w,
       elementCounts (ui (run (parseKML parseFromString kml length kmlText) w))
       = elementCounts (ui (run (parseKML parseFromString kml length' kmlText) w))).
Proof.
  split.
  - intros f ty e loc w Hty Hne Hline Hlen.
    destruct (tally_feature_thrown length f ty e loc Hty Hne Hline Hlen) as [Hstep _].
    eexists. rewrite processFeature_eq, Hstep. reflexivity.
  - intros length' kmlText w. unfold run.
    destruct (parseFromString kmlText "text/xml") as [doc|e] eqn:Hdoc.
    + destruct (kml doc) as [converted|e] eqn:Hkml.
      * rewrite !(parseKML_converted _ _ _ _ _ _ _ _ Hdoc Hkml). simpl.
        by apply counts_tally_ext.
      * assert (parseFromString kmlText "text/xml" = Thrown e
                \/ exists doc, parseFromString kmlText "text/xml" = Normal doc
                               /\ kml doc = Thrown e) as Hthrown by eauto.
        by rewrite !(parseKML_thrown _ _ _ _ _ _ _ Hthrown).
    + by rewrite !(parseKML_thrown _ _ _ _ kmlText e _ (or_introl Hdoc)).
Qed.

(** * Further properties *)

Section Readings.
Context {JN : JsNumber} {LF : Leaflet}.
Variable Document : Type.
Variable parseFromString : string -> string -> Outcome Document.
Variable kml : Document -> Outcome FeatureCollection.
Variable length : Feature -> string -> Outcome num.
Variable bbox : FeatureCollection -> num * num * num * num.

(** ** [parseKML] never throws *)

(** [parseKML] returns normally with the flag cleared and the view mode
    and the map view as they were. *)
Lemma parseKML_outcome (kmlText : string) (w : World) :
  let r := parseKML parseFromString kml length kmlText w in
  r.1 = Normal tt
  /\ isLoading (ui r.2) = false
  /\ activeView (ui r.2) = activeView (ui w)
  /\ mapView r.2 = mapView w.
Proof.
  cbv zeta.
  destruct (parseFromString kmlText "text/xml") as [doc|e] eqn:Hdoc.
  - destruct (kml doc) as [converted|e] eqn:Hkml.
    + by rewrite (parseKML_converted _ _ _ _ _ _ _ _ Hdoc Hkml).
    + by rewrite (parseKML_thrown _ parseFromString kml length kmlText e w)
        by (right; eauto).
  - by rewrite (parseKML_thrown _ parseFromString kml length kmlText e w) by (by left).
Qed.

(** Whatever the text, [parseKML] returns normally with the loading flag
    cleared; it leaves the view mode and the map view alone, and what it adds
    to the trace is one alert (the conversion threw) or console entries only
    (it did not). *)
Theorem parseKML_returns_and_clears_loading (kmlText : string) (w : World) :
  let r := parseKML parseFromString kml length kmlText w in
  r.1 = Normal tt
  /\ isLoading (ui r.2) = false
  /\ activeView (ui r.2) = activeView (ui w)
  /\ mapView r.2 = mapView w
  /\ exists log, trace r.2 = (trace w ++ log)%list
       /\ ((exists msg, log = [EAlert msg])
           \/ forall ev, ev ∈ log -> exists msg e, ev = EConsoleError msg e).
Proof.
  cbv zeta.
  destruct (parseFromString kmlText "text/xml") as [doc|e] eqn:Hdoc.
  - destruct (kml doc) as [converted|e] eqn:Hkml.
    + rewrite (parseKML_converted _ _ _ _ _ _ _ _ Hdoc Hkml). simpl.
      do 4 (split; [done|]). eexists. split; [reflexivity|].
      right. apply log_all_console.
    + rewrite (parseKML_thrown _ parseFromString kml length kmlText e w)
        by (right; eauto).
      simpl. do 4 (split; [done|]). eexists. split; [reflexivity|]. left. eauto.
  - rewrite (parseKML_thrown _ parseFromString kml length kmlText e w) by (by left).
    simpl. do 4 (split; [done|]). eexists. split; [reflexivity|]. left. eauto.
Qed.


(** ** ElementCounts, type by type *)

Lemma counts_tally_feature_lookup (ty : string) (f : Feature) (loc : Locals) :
  counts (tally_feature length f loc) !! ty
  = if typed_as ty f then Some (count_or_0 (counts loc !! ty) + 1)
    else counts loc !! ty.
Proof.
  unfold tally_feature, typed_as.
  destruct (geometry_type f) as [t|]; [|done].
  destruct (falsy_type (Some t)); [by rewrite andb_false_r|].
  rewrite andb_true_r.
  assert (forall l : gmap string num,
            counts {| counts := <[t := count_or_0 (counts loc !! t) + 1]> (counts loc);
                      lengths := l |} !! ty
            = if String.eqb t ty then Some (count_or_0 (counts loc !! ty) + 1)
              else counts loc !! ty) as Hcounts.
  { intros l. cbn [counts]. destruct (String.eqb_spec t ty) as [->|Hne].
    - apply lookup_insert_eq.
    - by apply lookup_insert_ne. }
  destruct (includes ["LineString"; "MultiLineString"] t);
    [destruct (length f "kilometers")|]; apply Hcounts.
Qed.

Lemma type_count_cons (ty : string) (f : Feature) (fs : list Feature) :
  type_count ty (f :: fs) = (if typed_as ty f then 1 else 0) + type_count ty fs.
Proof.
  unfold type_count. simpl. destruct (typed_as ty f); simpl List.length; lia.
Qed.

Lemma type_count_nonneg (ty : string) (fs : list Feature) : 0 <= type_count ty fs.
Proof. unfold type_count. lia. Qed.

Lemma counts_tally_lookup (ty : string) (fs : list Feature) (loc : Locals) :
  counts (tally length fs loc) !! ty
  = if (type_count ty fs =? 0)%Z then counts loc !! ty
    else Some (count_or_0 (counts loc !! ty) + type_count ty fs).
Proof.
  revert loc. induction fs as [|f fs IH]; intros loc; [done|].
  rewrite tally_cons, IH, counts_tally_feature_lookup, type_count_cons.
  pose proof (type_count_nonneg ty fs) as Hnn.
  destruct (typed_as ty f).
  - rewrite count_or_0_Some.
    destruct (Z.eqb_spec (type_count ty fs) 0) as [->|Hne].
    + simpl. f_equal; lia.
    + destruct (Z.eqb_spec (1 + type_count ty fs) 0); [lia|]. f_equal; lia.
  - done.
Qed.

(** After a conversion that succeeded, [elementCounts[ty]] is the number of
    features of the collection whose geometry type is [ty], and [ty] is not
    a key when there is no such feature. *)
Theorem elementCounts_is_type_count (kmlText : string) (doc : Document)
    (converted : FeatureCollection) (w : World) (ty : string) :
  parseFromString kmlText "text/xml" = Normal doc ->
  kml doc = Normal converted ->
  elementCounts (ui (run (parseKML parseFromString kml length kmlText) w)) !! ty
  = if (type_count ty (features converted) =? 0)%Z then None
    else Some (type_count ty (features converted)).
Proof.
  intros Hdoc Hkml. unfold run.
  rewrite (parseKML_converted _ _ _ _ _ _ _ _ Hdoc Hkml). simpl.
  rewrite counts_tally_lookup. simpl. rewrite lookup_empty.
  destruct (type_count ty (features converted) =? 0)%Z; [done|]. f_equal.
Qed.

Lemma type_count_Permutation (ty : string) (fs fs' : list Feature) :
  fs ≡ₚ fs' -> type_count ty fs = type_count ty fs'.
Proof.
  induction 1 as [|f fs fs' _ IH|f g fs|fs1 fs2 fs3 _ IH1 _ IH2].
  - done.
  - rewrite !type_count_cons. lia.
  - rewrite !type_count_cons. lia.
  - congruence.
Qed.

(** ElementCounts does not depend on the order of the features: two texts
    whose collections hold the same features in any order give the same
    table, whatever the states the parses start from and whichever
    measurements throw. *)
Theorem elementCounts_order_irrelevant (kmlText1 kmlText2 : string)
    (doc1 doc2 : Document) (fc1 fc2 : FeatureCollection) (w1 w2 : World) :
  parseFromString kmlText1 "text/xml" = Normal doc1 -> kml doc1 = Normal fc1 ->
  parseFromString kmlText2 "text/xml" = Normal doc2 -> kml doc2 = Normal fc2 ->
  features fc1 ≡ₚ features fc2 ->
  elementCounts (ui (run (parseKML parseFromString kml length kmlText1) w1))
  = elementCounts (ui (run (parseKML parseFromString kml length kmlText2) w2)).
Proof.
  intros Hdoc1 Hkml1 Hdoc2 Hkml2 Hperm. unfold run.
  rewrite (parseKML_converted _ _ _ _ _ _ _ _ Hdoc1 Hkml1).
  rewrite (parseKML_converted _ _ _ _ _ _ _ _ Hdoc2 Hkml2). simpl.
  apply map_eq. intros ty. rewrite !counts_tally_lookup.
  by rewrite (type_count_Permutation ty _ _ Hperm).
Qed.

(** ** LineLengths, type by type *)

Lemma lengths_tally_feature_lookup (ty : string) (f : Feature) (loc : Locals) :
  lengths (tally_feature length f loc) !! ty
  = match measurement length ty f with
    | Some v => accumulate (lengths loc !! ty) v
    | None => lengths loc !! ty
    end.
Proof.
  unfold tally_feature, measurement, typed_as, accumulate.
  destruct (geometry_type f) as [t|]; [|done].
  destruct (falsy_type (Some t)); [by rewrite andb_false_r|].
  rewrite andb_true_r.
  destruct (String.eqb_spec t ty) as [->|Hne].
  - destruct (includes ["LineString"; "MultiLineString"] ty); [|done].
    destruct (length f "kilometers") as [v|e]; [|done].
    cbn [lengths andb]. by rewrite lookup_insert_eq.
  - destruct (includes ["LineString"; "MultiLineString"] t); [|done].
    destruct (length f "kilometers") as [v|e]; [|done].
    cbn [lengths andb]. by rewrite lookup_insert_ne.
Qed.

Lemma lengths_tally_lookup (ty : string) (fs : list Feature) (loc : Locals) :
  lengths (tally length fs loc) !! ty
  = foldl accumulate (lengths loc !! ty) (omap (measurement length ty) fs).
Proof.
  revert loc. induction fs as [|f fs IH]; intros loc; [done|].
  rewrite tally_cons, IH, lengths_tally_feature_lookup. simpl.
  by destruct (measurement length ty f).
Qed.

Lemma foldl_accumulate_Some (x : num) (vs : list num) :
  is_Some (foldl accumulate (Some x) vs).
Proof.
  revert x. induction vs as [|v vs IH]; intros x; [by eexists|]. apply IH.
Qed.

Lemma foldl_accumulate_None (vs : list num) :
  foldl accumulate None vs = None <-> vs = [].
Proof.
  split; [|by intros ->]. destruct vs as [|v vs]; [done|]. simpl.
  intros Hnone. destruct (foldl_accumulate_Some (num_add num_zero v) vs) as [x Hx].
  unfold accumulate in Hnone at 2. simpl in Hnone. congruence.
Qed.

(** After a conversion that succeeded, [lineLengths[ty]] is the running sum
    [(acc || 0) + v], in the order of the collection, of the lengths measured
    for the line-like features of type [ty]; features whose measurement threw
    add nothing, and [ty] is a key exactly when one measurement succeeded. *)
Theorem lineLengths_is_running_sum (kmlText : string) (doc : Document)
    (converted : FeatureCollection) (w : World) (ty : string) :
  parseFromString kmlText "text/xml" = Normal doc ->
  kml doc = Normal converted ->
  let total := lineLengths
                 (ui (run (parseKML parseFromString kml length kmlText) w)) !! ty in
  total = foldl accumulate None (omap (measurement length ty) (features converted))
  /\ (total = None <-> omap (measurement length ty) (features converted) = []).
Proof.
  intros Hdoc Hkml. cbv zeta. unfold run.
  rewrite (parseKML_converted _ _ _ _ _ _ _ _ Hdoc Hkml). simpl.
  rewrite lengths_tally_lookup. simpl. rewrite lookup_empty.
  split; [done|]. apply foldl_accumulate_None.
Qed.

(** ** The console, entry by entry *)

Lemma log_feature_failure (f : Feature) :
  log_feature length f
  = match failure length f with
    | Some e => [EConsoleError "Error calculating length for feature:" e]
    | None => []
    end.
Proof.
  unfold log_feature, failure.
  destruct (geometry_type f) as [t|]; [|done].
  destruct (falsy_type (Some t)); [done|]. cbn [negb andb].
  destruct (includes ["LineString"; "MultiLineString"] t); [|done].
  by destruct (length f "kilometers").
Qed.

Lemma log_all_failures (fs : list Feature) :
  log_all length fs
  = map (EConsoleError "Error calculating length for feature:")
        (omap (failure length) fs).
Proof.
  induction fs as [|f fs IH]; [done|].
  unfold log_all in *. simpl. rewrite IH, log_feature_failure.
  by destruct (failure length f).
Qed.

(** After a conversion that succeeded, the trace has grown by exactly one
    console entry per line-like feature whose measurement threw, in the
    order of the collection and carrying the exception thrown; nothing is
    logged for the other features. *)
Theorem console_lists_failed_measurements (kmlText : string) (doc : Document)
    (converted : FeatureCollection) (w : World) :
  parseFromString kmlText "text/xml" = Normal doc ->
  kml doc = Normal converted ->
  trace (run (parseKML parseFromString kml length kmlText) w)
  = (trace w ++ map (EConsoleError "Error calculating length for feature:")
                    (omap (failure length) (features converted)))%list.
Proof.
  intros Hdoc Hkml. unfold run.
  rewrite (parseKML_converted _ _ _ _ _ _ _ _ Hdoc Hkml). simpl.
  by rewrite log_all_failures.
Qed.

(** ** What is shown after an upload *)

Lemma strict_eq_true (v : option string) (x : string) :
  strict_eq v x = true <-> v = Some x.
Proof.
  unfold strict_eq. destruct v as [y|]; [|done].
  destruct (String.eqb_spec y x); split; congruence.
Qed.

Lemma has_keys_false {A} (obj : gmap string A) : has_keys obj = false <-> obj = ∅.
Proof.
  unfold has_keys. rewrite <- map_size_empty_iff.
  destruct (Z.ltb_spec 0 (Z.of_nat (size obj))); split; intros; try done; lia.
Qed.

(** The summary panel shows its message, and no table, exactly when the
    summary is the active view and ElementCounts has no key; likewise for
    the details panel and LineLengths. *)
Lemma panel_messages (s : ViewerState) :
  (summaryPanel (render s) = Some (Message "No elements found in KML file")
   <-> activeView s = Some "summary" /\ elementCounts s = ∅)
  /\ (detailsPanel (render s) = Some (Message "No line elements found in KML file")
      <-> activeView s = Some "details" /\ lineLengths s = ∅).
Proof.
  unfold render. cbn [summaryPanel detailsPanel].
  rewrite <- !strict_eq_true, <- !has_keys_false.
  destruct (strict_eq (activeView s) "summary"),
           (strict_eq (activeView s) "details"),
           (has_keys (elementCounts s)), (has_keys (lineLengths s));
    (split; (split; [try done; by intros [? ?] | by intros [? ?]])).
Qed.

Lemma tally_feature_untyped (f : Feature) (loc : Locals) :
  has_type f = false -> tally_feature length f loc = loc.
Proof.
  unfold has_type, tally_feature. destruct (geometry_type f) as [t|]; [|done].
  by destruct (falsy_type (Some t)).
Qed.

Lemma counts_tally_empty (fs : list Feature) :
  counts (tally length fs {| counts := ∅; lengths := ∅ |}) = ∅
  <-> Forall (fun f => has_type f = false) fs.
Proof.
  split.
  - intros Hempty.
    pose proof (sum_values_tally length fs {| counts := ∅; lengths := ∅ |}) as Hsum.
    rewrite Hempty in Hsum. simpl in Hsum.
    assert (sum_values ∅ = 0) as Hzero by reflexivity. rewrite Hzero in Hsum.
    clear Hempty Hzero. induction fs as [|f fs IH]; [done|].
    simpl in Hsum. destruct (has_type f) eqn:Hf; simpl in Hsum; [lia|].
    constructor; [done|]. by apply IH.
  - intros Hall. induction Hall as [|f fs Hf _ IH]; [done|].
    by rewrite tally_cons, tally_feature_untyped.
Qed.

(** What the component shows once a conversion has succeeded: the overlay is
    the converted collection, the spinner is off and the three buttons are
    enabled; the summary panel reads "No elements found in KML file"
    exactly when it is the active view and no feature has a geometry type;
    the details panel reads "No line elements found in KML file" exactly
    when it is the active view and no measurement succeeded. *)
Theorem render_after_upload (kmlText : string) (doc : Document)
    (converted : FeatureCollection) (w : World) :
  parseFromString kmlText "text/xml" = Normal doc ->
  kml doc = Normal converted ->
  let v := render (ui (run (parseKML parseFromString kml length kmlText) w)) in
  overlay v = Some converted
  /\ spinner v = false
  /\ controls v = {| showSummary_disabled := false; showDetails_disabled := false;
                     clearData_disabled := false |}
  /\ (summaryPanel v = Some (Message "No elements found in KML file")
      <-> activeView (ui w) = Some "summary"
          /\ Forall (fun f => has_type f = false) (features converted))
  /\ (detailsPanel v = Some (Message "No line elements found in KML file")
      <-> activeView (ui w) = Some "details"
          /\ forall ty, omap (measurement length ty) (features converted) = []).
Proof.
  intros Hdoc Hkml. cbv zeta.
  destruct (panel_messages (ui (run (parseKML parseFromString kml length kmlText) w)))
    as [Hsummary Hdetails].
  rewrite Hsummary, Hdetails. clear Hsummary Hdetails. unfold run.
  rewrite (parseKML_converted _ _ _ _ _ _ _ _ Hdoc Hkml). simpl.
  do 3 (split; [done|]). rewrite counts_tally_empty. split; [done|].
  split; intros [Hview Hnone]; (split; [done|]).
  - intros ty. apply foldl_accumulate_None.
    pose proof (lengths_tally_lookup ty (features converted)
                  {| counts := ∅; lengths := ∅ |}) as Hty.
    rewrite Hnone in Hty. simpl in Hty. by rewrite !lookup_empty in Hty.
  - apply map_eq. intros ty. rewrite lengths_tally_lookup, Hnone. simpl.
    by rewrite !lookup_empty.
Qed.

(** ** Events that carry files *)

(** A change event or a drop event with one file or more starts exactly one
    read, of the first file; the other files are ignored, the component
    state and the map are untouched, and nothing is alerted. *)
Theorem first_file_is_read (file : File) (others : list File) (w : World) :
  handleFileUpload {| target_files := file :: others |} w
  = (Normal tt, {| ui := ui w; mapView := mapView w;
                   trace := trace w ++ [EReadAsText file] |})
  /\ handleDrop {| dataTransfer_files := file :: others |} w
     = (Normal tt, {| ui := ui w; mapView := mapView w;
                      trace := trace w ++ [EPreventDefault; EReadAsText file] |}).
Proof.
  split; [reflexivity|].
  unfold handleDrop, mbind, M_bind, bind, readAsText. simpl.
  unfold emit, log_to. simpl. by rewrite <- app_assoc.
Qed.

(** ** The view-mode buttons *)

(** With no collection loaded, Show Summary and Show Details do nothing.
    With one loaded, each sets the view mode and nothing else, so that the
    panel of the button clicked is rendered and the other panel is not. *)
Theorem view_buttons (w : World) :
  (geojsonData (ui w) = None ->
   dispatch parseFromString kml length ClickShowSummary w = (Normal tt, w)
   /\ dispatch parseFromString kml length ClickShowDetails w = (Normal tt, w))
  /\ (geojsonData (ui w) <> None ->
      let with_view v :=
        {| ui := {| geojsonData := geojsonData (ui w);
                    elementCounts := elementCounts (ui w);
                    lineLengths := lineLengths (ui w);
                    activeView := Some v;
                    isLoading := isLoading (ui w) |};
           mapView := mapView w; trace := trace w |} in
      dispatch parseFromString kml length ClickShowSummary w
      = (Normal tt, with_view "summary")
      /\ dispatch parseFromString kml length ClickShowDetails w
         = (Normal tt, with_view "details")
      /\ summaryPanel (render (ui (with_view "summary"))) <> None
      /\ detailsPanel (render (ui (with_view "summary"))) = None
      /\ summaryPanel (render (ui (with_view "details"))) = None
      /\ detailsPanel (render (ui (with_view "details"))) <> None).
Proof.
  unfold dispatch, render_controls. simpl.
  destruct (geojsonData (ui w)) as [fc|] eqn:Hfc; simpl; split; try done.
  intros _. unfold setActiveView, modify_ui. rewrite Hfc. repeat split; done.
Qed.

(** ** What an event can change *)

(** No handler moves the map. *)
Lemma dispatch_mapView (ev : UiEvent) (w : World) :
  mapView (run (dispatch parseFromString kml length ev) w) = mapView w.
Proof.
  unfold run. destruct ev as [e|e| |result| | | |]; unfold dispatch, render_controls.
  - unfold handleFileUpload. by destruct (target_files e !! 0%nat).
  - unfold handleDrop, mbind, M_bind, bind, emit. simpl.
    by destruct (dataTransfer_files e !! 0%nat).
  - done.
  - apply parseKML_outcome.
  - done.
  - simpl. by destruct (geojsonData (ui w)).
  - simpl. by destruct (geojsonData (ui w)).
  - simpl. by destruct (geojsonData (ui w)).
Qed.

(** No handler throws and none touches the map view.  FeatureCollection,
    ElementCounts and LineLengths change only when a read completes or Clear
    is clicked; the view mode changes only on a click of one of the three
    buttons. *)
Theorem dispatch_frame (ev : UiEvent) (w : World) :
  let r := dispatch parseFromString kml length ev w in
  r.1 = Normal tt
  /\ mapView r.2 = mapView w
  /\ ((forall result, ev <> ReaderLoad result) -> ev <> ClickClearData ->
      geojsonData (ui r.2) = geojsonData (ui w)
      /\ elementCounts (ui r.2) = elementCounts (ui w)
      /\ lineLengths (ui r.2) = lineLengths (ui w))
  /\ (ev <> ClickShowSummary -> ev <> ClickShowDetails -> ev <> ClickClearData ->
      activeView (ui r.2) = activeView (ui w)).
Proof.
  cbv zeta. destruct ev as [e|e| |result| | | |]; unfold dispatch, render_controls.
  - unfold handleFileUpload. by destruct (target_files e !! 0%nat).
  - unfold handleDrop, mbind, M_bind, bind, emit. simpl.
    by destruct (dataTransfer_files e !! 0%nat).
  - done.
  - unfold reader_onload.
    destruct (parseKML_outcome result w) as (Hnormal & _ & Hview & Hmap).
    split; [done|]. split; [done|].
    split; [intros Hne; by destruct (Hne result) | done].
  - done.
  - simpl. destruct (geojsonData (ui w)) eqn:Hfc; simpl;
      repeat split; intros; try done; congruence.
  - simpl. destruct (geojsonData (ui w)) eqn:Hfc; simpl;
      repeat split; intros; try done; congruence.
  - simpl. destruct (geojsonData (ui w)) eqn:Hfc; simpl;
      repeat split; intros; try done; congruence.
Qed.

(** ** Sessions *)

Lemma consistent_dispatch (ev : UiEvent) (w : World) :
  consistent length (ui w) ->
  consistent length (ui (run (dispatch parseFromString kml length ev) w)).
Proof.
  intros Hw. unfold run.
  destruct ev as [e|e| |result| | | |]; unfold dispatch, render_controls.
  - unfold handleFileUpload. by destruct (target_files e !! 0%nat).
  - unfold handleDrop, mbind, M_bind, bind, emit. simpl.
    by destruct (dataTransfer_files e !! 0%nat).
  - done.
  - unfold reader_onload.
    destruct (parseFromString result "text/xml") as [doc|e] eqn:Hdoc.
    + destruct (kml doc) as [converted|e] eqn:Hkml.
      * rewrite (parseKML_converted _ _ _ _ _ _ _ _ Hdoc Hkml). by unfold consistent.
      * rewrite (parseKML_thrown _ parseFromString kml length result e w)
          by (right; eauto).
        apply Hw.
    + rewrite (parseKML_thrown _ parseFromString kml length result e w) by (by left).
      apply Hw.
  - done.
  - simpl. destruct (geojsonData (ui w)) as [fc|] eqn:Hfc; [|apply Hw].
    unfold consistent in *. simpl. by rewrite Hfc in *.
  - simpl. destruct (geojsonData (ui w)) as [fc|] eqn:Hfc; [|apply Hw].
    unfold consistent in *. simpl. by rewrite Hfc in *.
  - simpl. destruct (geojsonData (ui w)) as [fc|] eqn:Hfc; [|apply Hw].
    by unfold consistent.
Qed.

Lemma isLoading_dispatch (ev : UiEvent) (w : World) :
  isLoading (ui w) = false ->
  isLoading (ui (run (dispatch parseFromString kml length ev) w)) = false.
Proof.
  intros Hw. unfold run.
  destruct ev as [e|e| |result| | | |]; unfold dispatch, render_controls.
  - unfold handleFileUpload. by destruct (target_files e !! 0%nat).
  - unfold handleDrop, mbind, M_bind, bind, emit. simpl.
    by destruct (dataTransfer_files e !! 0%nat).
  - done.
  - apply parseKML_outcome.
  - done.
  - simpl. by destruct (geojsonData (ui w)).
  - simpl. by destruct (geojsonData (ui w)).
  - simpl. by destruct (geojsonData (ui w)).
Qed.

Lemma run_events_invariant (P : World -> Prop) (evs : list UiEvent) (w : World) :
  (forall ev w', P w' -> P (run (dispatch parseFromString kml length ev) w')) ->
  P w -> P (run_events parseFromString kml length evs w).
Proof.
  intros Hstep. revert w. induction evs as [|ev evs IH]; intros w Hw; [done|].
  simpl. apply IH, Hstep, Hw.
Qed.

(** The tables and the flag a session leaves. *)
Lemma run_events_state (evs : list UiEvent) (view : MapView) :
  let w := run_events parseFromString kml length evs (mounted view) in
  consistent length (ui w) /\ isLoading (ui w) = false.
Proof.
  cbv zeta.
  apply (run_events_invariant
           (fun w => consistent length (ui w) /\ isLoading (ui w) = false)); [|done].
  intros ev w [Hc Hl]. split; [by apply consistent_dispatch | by apply isLoading_dispatch].
Qed.

(** After any sequence of events on a freshly mounted component: the two
    tables are those the pass computes for the collection on display, or
    empty together with the view mode when none is; the loading flag is
    off; and the handlers have left the map view where it was. *)
Theorem session_invariant (evs : list UiEvent) (view : MapView) :
  let w := run_events parseFromString kml length evs (mounted view) in
  consistent length (ui w)
  /\ isLoading (ui w) = false
  /\ mapView w = view.
Proof.
  cbv zeta. destruct (run_events_state evs view) as [Hc Hl].
  split; [exact Hc|]. split; [exact Hl|].
  apply (run_events_invariant (fun w => mapView w = view)); [|done].
  intros ev w <-. apply dispatch_mapView.
Qed.

(** In a session, whenever no collection is loaded the component renders as
    it did when mounted: no spinner, the three buttons disabled, no panel
    and no overlay. *)
Theorem nothing_shown_without_data (evs : list UiEvent) (view : MapView) :
  let s := ui (run_events parseFromString kml length evs (mounted view)) in
  geojsonData s = None ->
  render s = render initialState.
Proof.
  cbv zeta. intros Hnone.
  destruct (run_events_state evs view) as [Hc Hl].
  unfold consistent in Hc. rewrite Hnone in Hc. destruct Hc as (Hcounts & Hlengths & Hview).
  unfold render, render_controls. by rewrite Hnone, Hcounts, Hlengths, Hview, Hl.
Qed.

(** In a session the tables keep their shape: every key of LineLengths is a
    key of ElementCounts, every count is at least 1, and, provided turf's
    [length] only returns values [>= 0], LineLengths has line-like keys
    and values [>= 0] only. *)
Theorem session_tables_wf (evs : list UiEvent) (view : MapView) :
  let s := ui (run_events parseFromString kml length evs (mounted view)) in
  tables_wf (elementCounts s) (lineLengths s)
  /\ ((forall g u v, length g u = Normal v -> num_nonneg v) ->
      lengths_wf (lineLengths s)).
Proof.
  cbv zeta. destruct (run_events_state evs view) as [Hc _].
  unfold consistent in Hc.
  destruct (geojsonData _) as [fc|].
  - destruct Hc as [-> ->]. split; [apply tables_wf_tally|].
    intros Hlen. by apply lengths_wf_tally.
  - destruct Hc as (-> & -> & _). split.
    + split; [done|]. intros k v Hk. by rewrite lookup_empty in Hk.
    + intros _. apply lengths_wf_empty.
Qed.

(** ** Where the calls to the host come from *)

Lemma dispatch_explained (ev : UiEvent) (w : World) :
  exists log,
    trace (run (dispatch parseFromString kml length ev) w) = (trace w ++ log)%list
    /\ Forall (explains parseFromString kml ev) log.
Proof.
  unfold run. destruct ev as [e|e| |result| | | |]; unfold dispatch, render_controls.
  - unfold handleFileUpload. destruct (target_files e !! 0%nat) as [file|] eqn:Hfile.
    + exists [EReadAsText file]. split; [done|]. constructor; [|done]. left. eauto.
    + exists []. split; [by rewrite app_nil_r | done].
  - unfold handleDrop, mbind, M_bind, bind. simpl.
    destruct (dataTransfer_files e !! 0%nat) as [file|] eqn:Hfile.
    + exists [EPreventDefault; EReadAsText file]. split.
      * unfold readAsText, emit, log_to. simpl. by rewrite <- app_assoc.
      * constructor; [right; eauto|]. constructor; [right; eauto | done].
    + exists [EPreventDefault]. split; [done|]. constructor; [right; eauto | done].
  - exists [EPreventDefault]. split; [done|]. constructor; [by left | done].
  - unfold reader_onload.
    destruct (parseFromString result "text/xml") as [doc|e] eqn:Hdoc.
    + destruct (kml doc) as [converted|e] eqn:Hkml.
      * rewrite (parseKML_converted _ _ _ _ _ _ _ _ Hdoc Hkml). simpl.
        eexists. split; [reflexivity|]. rewrite log_all_failures.
        apply Forall_forall. intros x Hx. apply list_elem_of_In in Hx.
        apply in_map_iff in Hx as (err & <- & _).
        simpl. eauto.
      * assert (conversion_throws parseFromString kml result e) as Hthrows
          by (right; eauto).
        rewrite (parseKML_thrown _ parseFromString kml length result e w Hthrows).
        simpl. eexists. split; [reflexivity|]. constructor; [|done].
        right. eauto.
    + assert (conversion_throws parseFromString kml result e) as Hthrows by (by left).
      rewrite (parseKML_thrown _ parseFromString kml length result e w Hthrows).
      simpl. eexists. split; [reflexivity|]. constructor; [|done].
      right. eauto.
  - exists [EAlert "Error reading file"]. split; [done|]. constructor; [|done].
    left. done.
  - exists []. simpl. split; [|done].
    destruct (geojsonData (ui w)); simpl; by rewrite app_nil_r.
  - exists []. simpl. split; [|done].
    destruct (geojsonData (ui w)); simpl; by rewrite app_nil_r.
  - exists []. simpl. split; [|done].
    destruct (geojsonData (ui w)); simpl; by rewrite app_nil_r.
Qed.

Lemma run_events_explained (evs : list UiEvent) (w : World) (x : Effect) :
  x ∈ trace (run_events parseFromString kml length evs w) ->
  x ∈ trace w \/ exists ev, ev ∈ evs /\ explains parseFromString kml ev x.
Proof.
  revert w. induction evs as [|ev evs IH]; intros w Hx; [by left|].
  simpl in Hx. apply IH in Hx as [Hx | (ev' & Hev' & Hx)].
  - destruct (dispatch_explained ev w) as (log & Htrace & Hlog).
    rewrite Htrace in Hx. apply elem_of_app in Hx as [Hx | Hx]; [by left|].
    right. exists ev. split; [by left|].
    rewrite Forall_forall in Hlog. by apply Hlog.
  - right. exists ev'. split; [by right | done].
Qed.

(** Every call to the host in a session comes from an event of the session:
    an alert from a failed read ("Error reading file") or from a conversion
    that threw (the message of the exception after "Error parsing KML
    file: "); a console entry from a completed read; a [readAsText] from a
    change or drop event whose first file is the file read; and the
    handlers never call [fitBounds]. *)
Theorem session_trace_explained (evs : list UiEvent) (view : MapView) (x : Effect) :
  x ∈ trace (run_events parseFromString kml length evs (mounted view)) ->
  exists ev, ev ∈ evs /\ explains parseFromString kml ev x.
Proof.
  intros Hx. apply run_events_explained in Hx as [Hx | Hx]; [|done].
  by apply elem_of_nil in Hx.
Qed.

(** ** Fitting after an upload and after Clear *)

Lemma FitBounds_features (g : FeatureCollection) (w : World) :
  features g <> [] ->
  FitBounds bbox (Some g) w
  = (let '(minX, minY, maxX, maxY) := bbox g in
     map_fitBounds ((minY, minX), (maxY, maxX))) w.
Proof.
  intros Hfs. unfold FitBounds, has_features.
  destruct (features g) as [|f fs]; [done|].
  cbn [List.length]. rewrite Nat2Z.inj_succ.
  by destruct (Z.ltb_spec 0 (Z.succ (Z.of_nat (List.length fs)))); [|lia].
Qed.

(** Rendering the map after a conversion that succeeded with at least one
    feature fits the view to the bounding box of the new collection, with
    one [fitBounds] call; rendering it after Clear calls nothing and leaves
    the map view where it was. *)
Theorem render_map_after_upload_and_clear (kmlText : string) (doc : Document)
    (converted : FeatureCollection) (w : World) :
  parseFromString kmlText "text/xml" = Normal doc ->
  kml doc = Normal converted ->
  features converted <> [] ->
  let w1 := run (parseKML parseFromString kml length kmlText) w in
  let w2 := run (render_map bbox (ui w1)) w1 in
  let w3 := run clearData w2 in
  let '(minX, minY, maxX, maxY) := bbox converted in
  mapView w2 = fitBounds ((minY, minX), (maxY, maxX)) (mapView w)
  /\ trace w2 = (trace w1 ++ [EFitBounds ((minY, minX), (maxY, maxX))])%list
  /\ render_map bbox (ui w3) w3 = (Normal tt, w3)
  /\ mapView w3 = mapView w2.
Proof.
  intros Hdoc Hkml Hfs. cbv zeta. unfold run.
  rewrite (parseKML_converted _ _ _ _ _ _ _ _ Hdoc Hkml).
  unfold render_map. cbn [snd ui geojsonData not_object].
  rewrite (FitBounds_features converted _ Hfs).
  by destruct (bbox converted) as [[[minX minY] maxX] maxY].
Qed.

End Readings.

(** * The properties on the demo host *)

#[local] Existing Instance Demo.Q_JsNumber.
#[local] Existing Instance Demo.Fitted_Leaflet.

Lemma Demo_length_nonneg (g : Feature) (u : string) (v : Q) :
  Demo.length g u = Normal v -> (0 <= v)%Q.
Proof.
  unfold Demo.length. destruct (geometry g) as [geo|]; [|discriminate].
  destruct (coordinates geo) as [|[|p ps] paths]; [discriminate ..|].
  intros Hv.
  replace v with (Qabs ((List.last ps p).1 - p.1)%Q) by (by injection Hv).
  apply Qabs_nonneg.
Qed.

(** The world after the trail has been loaded. *)
Lemma Demo_trail_loaded :
  geojsonData (ui (run (parseKML Demo.parseFromString Demo.kml Demo.length
                          "<kml>trail</kml>") Demo.world0))
  = Some Demo.trail.
Proof. reflexivity. Qed.

(** Three points and two lines of 5 km and 10 km. *)
Example Demo_trail_tables :
  let s := ui (run (parseKML Demo.parseFromString Demo.kml Demo.length
                      "<kml>trail</kml>") Demo.world0) in
  elementCounts s = {[ "Point" := 3; "LineString" := 2 ]}
  /\ lineLengths s = {[ "LineString" := 15%Q ]}
  /\ isLoading s = false
  /\ activeView s = None.
Proof. vm_compute. repeat split. Qed.

(** C1, as stated, fails: a placemark without geometry is a feature of the
    converted collection, and it is not counted. *)
Lemma C1_counterexample :
  Demo.parseFromString "<kml>bare</kml>" "text/xml" = Normal "<kml>bare</kml>"
  /\ Demo.kml "<kml>bare</kml>" = Normal {| features := [Demo.bare] |}
  /\ sum_values (elementCounts
       (ui (run (parseKML Demo.parseFromString Demo.kml Demo.length
                   "<kml>bare</kml>") Demo.world0))) = 0
  /\ Z.of_nat (List.length (features {| features := [Demo.bare] |})) = 1
  /\ sum_values (elementCounts
       (ui (run (parseKML Demo.parseFromString Demo.kml Demo.length
                   "<kml>bare</kml>") Demo.world0)))
     <> Z.of_nat (List.length (features {| features := [Demo.bare] |})).
Proof. repeat split. vm_compute. discriminate. Qed.

Lemma C1_witness :
  let total := sum_values (elementCounts
                 (ui (run (parseKML Demo.parseFromString Demo.kml Demo.length
                             "<kml>trail</kml>") Demo.world0))) in
  total = Z.of_nat (List.length (List.filter has_type (features Demo.trail)))
  /\ (total = Z.of_nat (List.length (features Demo.trail))
      <-> Forall (fun f => has_type f = true) (features Demo.trail)).
Proof.
  apply (C1_counts_sum_to_typed_features string Demo.parseFromString Demo.kml
           Demo.length "<kml>trail</kml>" "<kml>trail</kml>" Demo.trail Demo.world0);
    reflexivity.
Defined.

Lemma C2_witness :
  let w := run (parseKML Demo.parseFromString Demo.kml Demo.length
                  "<kml>trail</kml>") Demo.world0 in
  let r := parseKML Demo.parseFromString Demo.kml Demo.length "hello" w in
  r.1 = Normal tt
  /\ trace r.2 = (trace w ++ [EAlert ("Error parsing KML file: "
                                      ++ message {| message := "not well-formed" |})])%list
  /\ geojsonData (ui r.2) = geojsonData (ui w)
  /\ elementCounts (ui r.2) = elementCounts (ui w)
  /\ lineLengths (ui r.2) = lineLengths (ui w)
  /\ activeView (ui r.2) = activeView (ui w)
  /\ mapView r.2 = mapView w
  /\ isLoading (ui r.2) = false.
Proof.
  apply (C2_failed_conversion_alerts_and_keeps_data string Demo.parseFromString
           Demo.kml Demo.length "hello" {| message := "not well-formed" |}).
  left. reflexivity.
Defined.

Lemma C3_witness :
  let fs1 := [Demo.line "LineString" [(0, 0); (5, 0)]%Q] in
  let fs2 := [Demo.line "MultiLineString" [(0, 1); (10, 1)]%Q; Demo.point "d" 3 3] in
  let e := {| message := "coordinates must contain numbers" |} in
  let r := parseKML Demo.parseFromString Demo.kml Demo.length
             "<kml>damaged</kml>" Demo.world0 in
  let empty := {| counts := ∅; lengths := ∅ |} in
  r.1 = Normal tt
  /\ geojsonData (ui r.2) = Some {| features := fs1 ++ Demo.damaged :: fs2 |}
  /\ isLoading (ui r.2) = false
  /\ (exists log, trace r.2 = (trace Demo.world0 ++ log)%list
        /\ EConsoleError "Error calculating length for feature:" e ∈ log
        /\ forall ev, ev ∈ log -> exists msg e', ev = EConsoleError msg e')
  /\ (forall w0, exists loc w1,
        forEach (fs1 ++ fs2) (processFeature Demo.length) empty w0 = (Normal loc, w1)
        /\ lineLengths (ui r.2) = lengths loc)
  /\ (forall w0, exists loc1 w1 loc3 w3,
        forEach fs1 (processFeature Demo.length) empty w0 = (Normal loc1, w1)
        /\ forEach fs2 (processFeature Demo.length)
             {| counts := <["LineString" := count_or_0 (counts loc1 !! "LineString") + 1]>
                            (counts loc1);
                lengths := lengths loc1 |} w1 = (Normal loc3, w3)
        /\ elementCounts (ui r.2) = counts loc3
        /\ lineLengths (ui r.2) = lengths loc3).
Proof.
  apply (C3_failed_measurement_is_logged_and_skipped string Demo.parseFromString
           Demo.kml Demo.length "<kml>damaged</kml>" "<kml>damaged</kml>"
           [Demo.line "LineString" [(0, 0); (5, 0)]%Q]
           [Demo.line "MultiLineString" [(0, 1); (10, 1)]%Q; Demo.point "d" 3 3]
           Demo.damaged "LineString"
           {| message := "coordinates must contain numbers" |} Demo.world0);
    [reflexivity | reflexivity | reflexivity | discriminate | reflexivity | reflexivity].
Defined.

Lemma C4_witness :
  (exists loc w',
     forEach (features Demo.trail) (processFeature Demo.length)
       {| counts := ∅; lengths := ∅ |} Demo.world0 = (Normal loc, w')
     /\ lengths_wf (lengths loc))
  /\ lengths_wf (lineLengths
       (ui (run (parseKML Demo.parseFromString Demo.kml Demo.length
                   "<kml>trail</kml>") Demo.world0))).
Proof.
  destruct (C4_lineLengths_line_like_and_nonneg string Demo.parseFromString
              Demo.kml Demo.length Demo_length_nonneg) as [Hpass Hstate].
  split; [apply Hpass|]. apply Hstate.
  intros k v Hk. vm_compute in Hk. discriminate.
Defined.

Lemma C5_witness :
  let w := run (parseKML Demo.parseFromString Demo.kml Demo.length
                  "<kml>trail</kml>") Demo.world0 in
  geojsonData (ui w) <> None
  /\ dispatch Demo.parseFromString Demo.kml Demo.length ClickClearData w = clearData w
  /\ ui (clearData w).2 = initialState.
Proof.
  cbv zeta.
  destruct (C5_clear_resets_and_disables string Demo.parseFromString Demo.kml
              Demo.length
              (run (parseKML Demo.parseFromString Demo.kml Demo.length
                      "<kml>trail</kml>") Demo.world0))
    as (_ & Hui & _ & _ & Hclick & _).
  assert (geojsonData (ui (run (parseKML Demo.parseFromString Demo.kml Demo.length
                                  "<kml>trail</kml>") Demo.world0)) <> None)
    as Hloaded by (rewrite Demo_trail_loaded; discriminate).
  split; [exact Hloaded|]. split; [exact (Hclick Hloaded)|].
  rewrite Hui. reflexivity.
Defined.

Lemma C6_witness :
  let w := Demo.world0 in
  let w' := run (parseKML Demo.parseFromString Demo.kml Demo.length
                   "<kml>damaged</kml>") Demo.world0 in
  let s1 := ui (run (parseKML Demo.parseFromString Demo.kml Demo.length
                       "<kml>trail</kml>") w) in
  let s2 := ui (run (parseKML Demo.parseFromString Demo.kml Demo.length
                       "<kml>trail</kml>") w') in
  elementCounts s1 = elementCounts s2 /\ lineLengths s1 = lineLengths s2.
Proof.
  apply (proj2 (C6_parsing_twice_gives_same_tables string Demo.parseFromString
                  Demo.kml Demo.length "<kml>trail</kml>")
           "<kml>trail</kml>" Demo.trail); reflexivity.
Defined.

Lemma C7_witness :
  (FitBounds Demo.bbox (Some {| features := [] |}) Demo.world0).2 = Demo.world0
  /\ (FitBounds Demo.bbox (Some Demo.trail) Demo.world0).2
     = {| ui := ui Demo.world0;
          mapView := Some ((0, 0), (2, 10))%Q;
          trace := [EFitBounds ((0, 0), (2, 10))%Q] |}.
Proof.
  split.
  - destruct (C7_fitBounds_only_with_features Demo.bbox
                (Some {| features := [] |}) Demo.world0) as (_ & Hnone & _).
    apply (Hnone {| features := [] |}); reflexivity.
  - destruct (C7_fitBounds_only_with_features Demo.bbox
                (Some Demo.trail) Demo.world0) as (_ & _ & _ & Hsome & _).
    apply (Hsome Demo.trail); [reflexivity | discriminate].
Defined.

Lemma C9_witness :
  let s := ui (run (parseKML Demo.parseFromString Demo.kml Demo.length
                      "<kml>damaged</kml>") Demo.world0) in
  tables_wf (elementCounts s) (lineLengths s).
Proof.
  apply (proj2 (C9_lengths_keys_counted_and_counts_positive string
                  Demo.parseFromString Demo.kml Demo.length)).
  split; [reflexivity|]. intros k v Hk. vm_compute in Hk. discriminate.
Defined.

Lemma C10_witness :
  exists w',
    processFeature Demo.length Demo.damaged
      {| counts := {[ "LineString" := 1 ]}; lengths := {[ "LineString" := 5%Q ]} |}
      Demo.world0
    = (Normal {| counts := <["LineString" :=
                   count_or_0 (({[ "LineString" := 1 ]} : gmap string Z) !! "LineString") + 1]>
                   {[ "LineString" := 1 ]};
                 lengths := {[ "LineString" := 5%Q ]} |}, w').
Proof.
  apply (proj1 (C10_failed_measurement_still_counted string Demo.parseFromString
                  Demo.kml Demo.length)
           Demo.damaged "LineString"
           {| message := "coordinates must contain numbers" |});
    [reflexivity | discriminate | reflexivity | reflexivity].
Defined.

(** ** The further properties on the demo host *)

Lemma elementCounts_is_type_count_witness :
  elementCounts (ui (run (parseKML Demo.parseFromString Demo.kml Demo.length
                            "<kml>trail</kml>") Demo.world0)) !! "Point"
  = if (type_count "Point" (features Demo.trail) =? 0)%Z then None
    else Some (type_count "Point" (features Demo.trail)).
Proof.
  apply (elementCounts_is_type_count string Demo.parseFromString Demo.kml
           Demo.length "<kml>trail</kml>" "<kml>trail</kml>" Demo.trail
           Demo.world0 "Point"); reflexivity.
Defined.

Lemma elementCounts_order_irrelevant_witness :
  elementCounts (ui (run (parseKML Demo.parseFromString DemoReversed.kml Demo.length
                            "<kml>trail</kml>") Demo.world0))
  = elementCounts (ui (run (parseKML Demo.parseFromString DemoReversed.kml Demo.length
                              "<kml>liart</kml>") Demo.world0)).
Proof.
  apply (elementCounts_order_irrelevant string Demo.parseFromString
           DemoReversed.kml Demo.length "<kml>trail</kml>" "<kml>liart</kml>"
           "<kml>trail</kml>" "<kml>liart</kml>"
           Demo.trail {| features := rev (features Demo.trail) |});
    [reflexivity | reflexivity | reflexivity | reflexivity |].
  apply Permutation_rev.
Defined.

Lemma lineLengths_is_running_sum_witness :
  let fc := {| features := [ Demo.line "LineString" [(0, 0); (5, 0)]; Demo.damaged;
                             Demo.line "MultiLineString" [(0, 1); (10, 1)];
                             Demo.point "d" 3 3 ]%Q |} in
  let total := lineLengths
                 (ui (run (parseKML Demo.parseFromString Demo.kml Demo.length
                             "<kml>damaged</kml>") Demo.world0)) !! "LineString" in
  total = foldl accumulate None (omap (measurement Demo.length "LineString") (features fc))
  /\ (total = None <-> omap (measurement Demo.length "LineString") (features fc) = []).
Proof.
  apply (lineLengths_is_running_sum string Demo.parseFromString Demo.kml
           Demo.length "<kml>damaged</kml>" "<kml>damaged</kml>"); reflexivity.
Defined.

Lemma console_lists_failed_measurements_witness :
  trace (run (parseKML Demo.parseFromString Demo.kml Demo.length
                "<kml>damaged</kml>") Demo.world0)
  = [EConsoleError "Error calculating length for feature:"
       {| message := "coordinates must contain numbers" |}].
Proof.
  rewrite (console_lists_failed_measurements string Demo.parseFromString Demo.kml
             Demo.length "<kml>damaged</kml>" "<kml>damaged</kml>" _ Demo.world0
             eq_refl eq_refl).
  reflexivity.
Defined.

Lemma render_after_upload_witness :
  let v := render (ui (run (parseKML Demo.parseFromString Demo.kml Demo.length
                              "<kml>bare</kml>") Demo.world0)) in
  overlay v = Some {| features := [Demo.bare] |}
  /\ spinner v = false
  /\ controls v = {| showSummary_disabled := false; showDetails_disabled := false;
                     clearData_disabled := false |}
  /\ (summaryPanel v = Some (Message "No elements found in KML file")
      <-> activeView (ui Demo.world0) = Some "summary"
          /\ Forall (fun f => has_type f = false) [Demo.bare])
  /\ (detailsPanel v = Some (Message "No line elements found in KML file")
      <-> activeView (ui Demo.world0) = Some "details"
          /\ forall ty, omap (measurement Demo.length ty) [Demo.bare] = []).
Proof.
  apply (render_after_upload string Demo.parseFromString Demo.kml Demo.length
           "<kml>bare</kml>" "<kml>bare</kml>" {| features := [Demo.bare] |}
           Demo.world0); reflexivity.
Defined.

Lemma view_buttons_witness :
  let w := run (parseKML Demo.parseFromString Demo.kml Demo.length
                  "<kml>trail</kml>") Demo.world0 in
  activeView (ui (run (dispatch Demo.parseFromString Demo.kml Demo.length
                         ClickShowDetails) w)) = Some "details"
  /\ dispatch Demo.parseFromString Demo.kml Demo.length ClickShowSummary Demo.world0
     = (Normal tt, Demo.world0).
Proof.
  cbv zeta. split.
  - destruct (proj2 (view_buttons string Demo.parseFromString Demo.kml Demo.length
                       (run (parseKML Demo.parseFromString Demo.kml Demo.length
                               "<kml>trail</kml>") Demo.world0)))
      as (_ & Hdetails & _); [rewrite Demo_trail_loaded; discriminate|].
    unfold run at 1. rewrite Hdetails. reflexivity.
  - apply (proj1 (view_buttons string Demo.parseFromString Demo.kml Demo.length
                    Demo.world0)). reflexivity.
Defined.

Lemma dispatch_frame_witness :
  let r := dispatch Demo.parseFromString Demo.kml Demo.length ReaderError Demo.world0 in
  geojsonData (ui r.2) = None /\ elementCounts (ui r.2) = ∅ /\ lineLengths (ui r.2) = ∅.
Proof.
  cbv zeta.
  destruct (dispatch_frame string Demo.parseFromString Demo.kml Demo.length
              ReaderError Demo.world0) as (_ & _ & Hdata & _).
  apply Hdata; discriminate.
Defined.

Lemma nothing_shown_without_data_witness :
  render (ui (run_events Demo.parseFromString Demo.kml Demo.length
                [ReaderLoad "<kml>trail</kml>"; ClickShowSummary; ClickClearData]
                (mounted (mapView Demo.world0))))
  = render initialState.
Proof.
  apply (nothing_shown_without_data string Demo.parseFromString Demo.kml Demo.length
           [ReaderLoad "<kml>trail</kml>"; ClickShowSummary; ClickClearData]
           (mapView Demo.world0)).
  reflexivity.
Defined.

Lemma session_tables_wf_witness :
  lengths_wf (lineLengths
    (ui (run_events Demo.parseFromString Demo.kml Demo.length
           [ReaderLoad "<kml>damaged</kml>"; ClickShowDetails] (mounted (mapView Demo.world0))))).
Proof.
  apply (proj2 (session_tables_wf string Demo.parseFromString Demo.kml Demo.length
                  [ReaderLoad "<kml>damaged</kml>"; ClickShowDetails]
                  (mapView Demo.world0))).
  exact Demo_length_nonneg.
Defined.

Lemma session_trace_explained_witness :
  exists ev,
    ev ∈ [InputChange {| target_files := [] |}; ReaderLoad "hello"]
    /\ explains Demo.parseFromString Demo.kml ev
         (EAlert "Error parsing KML file: not well-formed").
Proof.
  apply (session_trace_explained string Demo.parseFromString Demo.kml Demo.length
           [InputChange {| target_files := [] |}; ReaderLoad "hello"]
           (mapView Demo.world0)).
  change (EAlert "Error parsing KML file: not well-formed"
          ∈ [EAlert "Error parsing KML file: not well-formed"]).
  apply list_elem_of_singleton. reflexivity.
Defined.

Lemma render_map_after_upload_and_clear_witness :
  let w1 := run (parseKML Demo.parseFromString Demo.kml Demo.length
                   "<kml>trail</kml>") Demo.world0 in
  let w2 := run (render_map Demo.bbox (ui w1)) w1 in
  let w3 := run clearData w2 in
  mapView w2 = Some ((0, 0), (2, 10))%Q
  /\ trace w2 = (trace w1 ++ [EFitBounds ((0, 0), (2, 10))%Q])%list
  /\ render_map Demo.bbox (ui w3) w3 = (Normal tt, w3)
  /\ mapView w3 = mapView w2.
Proof.
  apply (render_map_after_upload_and_clear string Demo.parseFromString Demo.kml
           Demo.length Demo.bbox "<kml>trail</kml>" "<kml>trail</kml>" Demo.trail
           Demo.world0); [reflexivity | reflexivity | discriminate].
Defined.
